(** * Offer aggregation and price selection of the Amazon price scraper

    A shallow embedding of [src/amazon_price_core.py] (class
    [AmazonPriceScraper]) and of the row flattening done by
    [run_in_thread] in [src/amazon_price_gui.py].

    Modelling conventions.
    - Python [str] values are Rocq strings holding the UTF-8 bytes of the
      text.  UTF-8 is self-synchronising, so the substring test [x in y]
      on code points coincides with the substring test on bytes.
    - Python [int] is [Z]; Python [float] is an IEEE-754 binary64 value,
      taken from the standard library's executable specification
      [SpecFloat] with [prec = 53] and [emax = 1024].
    - An exception raised inside the [try] block of [get_product_data] is
      the [None] of an option computation; the [except] clause turns it
      into [_get_error_result].
    - The browser session and BeautifulSoup are external: a page is the
      record of the text nodes the CSS selectors of the source pick, and
      the driver maps a URL to such a page or fails (timeout).
    - [int(s)] reads a digit string of any length: the interpreter's
      optional limit on the number of digits is not modelled. *)

From Stdlib Require Import ZArith String Ascii List Bool Lia.
From Stdlib Require Import Permutation Sorted DecimalString DecimalNat.
From Stdlib Require Import Floats.SpecFloat.
From stdpp Require Import gmap strings list.

Open Scope Z_scope.

(** ** Python values that end up in a result dictionary or a sheet cell *)

Inductive pyval :=
| VInt (z : Z)
| VStr (s : string)
| VNone.

#[global] Instance pyval_eq_dec : EqDecision pyval.
Proof. solve_decision. Defined.

Definition pyval_to_sum (v : pyval) : Z + string + unit :=
  match v with
  | VInt z => inl (inl z)
  | VStr s => inl (inr s)
  | VNone => inr tt
  end.

Definition pyval_of_sum (x : Z + string + unit) : pyval :=
  match x with
  | inl (inl z) => VInt z
  | inl (inr s) => VStr s
  | inr _ => VNone
  end.

#[global] Instance pyval_countable : Countable pyval.
Proof.
  apply (inj_countable' pyval_to_sum pyval_of_sum).
  intros []; reflexivity.
Defined.

(** [isinstance(v, int)] *)
Definition is_int (v : pyval) : bool :=
  match v with VInt _ => true | _ => false end.

(** ** Text primitives *)

Module Text.

(** Python [needle in hay] on strings. *)
Fixpoint py_in (needle hay : string) : bool :=
  String.prefix needle hay ||
  match hay with
  | EmptyString => false
  | String _ rest => py_in needle rest
  end.

(** The regular-expression class [\d], on the ASCII digits.  Python also
    accepts the other Unicode decimal digits; a text that uses them is
    outside this model.  The statements below hold of every list of
    parsed offers and do not depend on which characters count as digits. *)
Definition is_digit (c : ascii) : bool :=
  ((48 <=? nat_of_ascii c) && (nat_of_ascii c <=? 57))%nat.

Definition is_digit_or_comma (c : ascii) : bool :=
  is_digit c || (nat_of_ascii c =? 44)%nat.

(** [re.findall(r'[cls]+', s)]: the maximal runs of characters of a class. *)
Fixpoint findall_runs (cls : ascii -> bool) (s : string) : list string :=
  match s with
  | EmptyString => []
  | String c rest =>
      if cls c then
        match rest with
        | String c' _ =>
            if cls c' then
              match findall_runs cls rest with
              | run :: runs => String c run :: runs
              | [] => [String c EmptyString]
              end
            else String c EmptyString :: findall_runs cls rest
        | EmptyString => [String c EmptyString]
        end
      else findall_runs cls rest
  end.

(** [re.sub(r'[^cls]', '', s)] and [s.replace(c, '')]: keep what [keep] accepts. *)
Fixpoint keep_chars (keep : ascii -> bool) (s : string) : string :=
  match s with
  | EmptyString => EmptyString
  | String c rest =>
      if keep c then String c (keep_chars keep rest) else keep_chars keep rest
  end.

(** [int(s)] for a string of decimal digits, most significant first. *)
Fixpoint int_of_digits (acc : Z) (s : string) : Z :=
  match s with
  | EmptyString => acc
  | String c rest => int_of_digits (10 * acc + (Z.of_nat (nat_of_ascii c) - 48)) rest
  end.

(** The longest prefix of characters of a class, and what follows it. *)
Fixpoint span (cls : ascii -> bool) (s : string) : string * string :=
  match s with
  | EmptyString => (EmptyString, EmptyString)
  | String c rest =>
      if cls c then let '(a, b) := span cls rest in (String c a, b)
      else (EmptyString, s)
  end.

Definition strip_prefix (p s : string) : option string :=
  if String.prefix p s
  then Some (String.substring (String.length p) (String.length s - String.length p) s)
  else None.

Definition bytes (l : list nat) : string :=
  fold_right (fun n s => String (ascii_of_nat n) s) EmptyString l.

(** The characters [str.split()] treats as separators, as UTF-8:
    U+0009..000D, U+001C..0020, U+0085, U+00A0, U+1680, U+2000..200A,
    U+2028, U+2029, U+202F, U+205F, U+3000. *)
Definition whitespace : list string :=
  List.map bytes
    ([[9]; [10]; [11]; [12]; [13]; [28]; [29]; [30]; [31]; [32];
      [194; 133]; [194; 160]; [225; 154; 128];
      [226; 128; 128]; [226; 128; 129]; [226; 128; 130]; [226; 128; 131];
      [226; 128; 132]; [226; 128; 133]; [226; 128; 134]; [226; 128; 135];
      [226; 128; 136]; [226; 128; 137]; [226; 128; 138];
      [226; 128; 168]; [226; 128; 169]; [226; 128; 175];
      [226; 129; 159]; [227; 128; 128]])%nat.

(** Byte width of the separator [s] starts with; [0] when it starts with none. *)
Definition ws_width (s : string) : nat :=
  match List.find (fun w => String.prefix w s) whitespace with
  | Some w => String.length w
  | None => 0%nat
  end.

Definition flush (word : string) : list string :=
  match word with EmptyString => [] | _ => [word] end.

(** [s.split()]: [skip] counts the bytes of a separator still to drop,
    [word] is the word read so far. *)
Fixpoint split_loop (s : string) (skip : nat) (word : string) : list string :=
  match s with
  | EmptyString => flush word
  | String c rest =>
      match skip with
      | S k => split_loop rest k word
      | O =>
          match ws_width s with
          | O => split_loop rest 0 (word ++ String c EmptyString)
          | S k => flush word ++ split_loop rest k EmptyString
          end
      end
  end.

Definition py_split (s : string) : list string := split_loop s 0 EmptyString.

(** [' '.join(s.split())] *)
Definition normalize_spaces (s : string) : string :=
  String.concat " " (py_split s).

End Text.

(** ** Binary64 arithmetic as Python uses it *)

Module PyFloat.

Definition prec : Z := 53.
Definition emax : Z := 1024.

(** Conversion of an [int] operand to [float] (round to nearest, ties to
    even); [None] is Python's [OverflowError]. *)
Definition of_int (z : Z) : option spec_float :=
  match binary_normalize prec emax z 0 false with
  | S754_infinity _ => None
  | f => Some f
  end.

(** [z * f] for an [int] [z] and a [float] [f]. *)
Definition int_mul (z : Z) (f : spec_float) : option spec_float :=
  match of_int z with
  | Some x => Some (SFmul prec emax x f)
  | None => None
  end.

(** Exact comparison of the rational [m * 2^e] with the integer [z]. *)
Definition cmp_scaled (m e z : Z) : comparison :=
  if 0 <=? e then (m * 2 ^ e ?= z) else (m ?= z * 2 ^ (- e)).

(** Python compares a [float] with an [int] exactly; a NaN compares with
    nothing. *)
Definition cmp_int (f : spec_float) (z : Z) : option comparison :=
  match f with
  | S754_nan => None
  | S754_infinity s => Some (if s then Lt else Gt)
  | S754_zero _ => Some (0 ?= z)
  | S754_finite s m e => Some (cmp_scaled (cond_Zopp s (Zpos m)) e z)
  end.

(** [f <= z] *)
Definition le_int (f : spec_float) (z : Z) : bool :=
  match cmp_int f z with
  | Some Lt | Some Eq => true
  | _ => false
  end.

(** [z <= f] *)
Definition int_le (z : Z) (f : spec_float) : bool :=
  match cmp_int f z with
  | Some Gt | Some Eq => true
  | _ => false
  end.


(** The literals of the source and of the examples. *)
Definition f0_85 : spec_float := S754_finite false 7656119366529843 (-53).
Definition f1_15 : spec_float := S754_finite false 5179139571476070 (-52).

End PyFloat.

(** ** Data model *)

(** The nodes [_parse_main_page_buybox] selects on the main page; each
    field is [None] when [select_one] finds nothing. *)
Record main_page_soup := {
  mp_price_span : option string;       (* [.text] of the price node *)
  mp_availability_div : option string; (* [get_text(strip=True)] of #availability *)
  mp_seller_feature : option string;   (* [get_text(strip=True)] *)
  mp_shipper_feature : option string   (* [get_text(strip=True)] *)
}.

(** One [#aod-offer] element of the side panel. *)
Record aod_offer := {
  ao_condition_span : option string;      (* [get_text(strip=True)] of the heading *)
  ao_price_span : option string;          (* [.text] of the price node *)
  ao_delivery_price_attr : option string; (* value of data-csa-c-delivery-price *)
  ao_shipping_span : option string;       (* [.text] of the shipping charge *)
  ao_seller_el : option string;           (* [get_text(strip=True)] *)
  ao_shipper_el : option string           (* [get_text(strip=True)] *)
}.

(** The dictionary built by [_parse_main_page_buybox]. *)
Record buybox := {
  bb_price : pyval;        (* 'N/A', [None] or an int *)
  bb_seller : string;
  bb_shipper : string;
  bb_real_stock : Z;
  bb_shipping_fee : Z;
  bb_condition : string
}.

(** An entry of [all_offers].  Its price is an int: the buy-box enters
    only under [isinstance(price, int)], a panel entry only when
    [_clean_price] did not return [None]. *)
Record offer := {
  price : Z;
  shipping_fee : Z;
  seller : string;
  shipper : string;
  condition : string
}.

(** The ['buybox_info'] entry of a result: the buy-box dictionary on
    success, a dictionary of sentinels (without 'shipping_fee') on error. *)
Record buybox_info_t := {
  bi_price : pyval;
  bi_seller : string;
  bi_shipper : string;
  bi_real_stock : pyval;
  bi_shipping_fee : option Z;
  bi_condition : string
}.

(** The dictionary returned by [get_product_data]. *)
Record product_result := {
  status : string;
  real_stock : pyval;
  total_offers : pyval;
  fba_count : pyval;
  fbm_count : pyval;
  inventory_score : pyval;
  effective_sellers_count : pyval;
  buybox_info : buybox_info_t;
  offers : list offer;
  optimal_price : pyval;
  optimal_price_condition : string;
  optimal_price_shipper : string;
  optimal_price_seller : string
}.

(** The browser session: loading a page and waiting for its container
    either gives the parsed page source or raises. *)
Record webdriver := {
  load_main_page : string -> option main_page_soup;
  load_side_panel : string -> option (list aod_offer)
}.

(** ** Sentinels and markers *)

Definition NA : string := "N/A".
Definition ERR : string := "エラー".
Definition NEW_MARK : string := "新品".
Definition USED_MARK : string := "中古".
Definition FBA_MARK : string := "Amazon".
Definition IN_STOCK : string := "在庫あり".
Definition FREE_MARK : string := "無料".

(** ** Page extractor *)

Definition is_empty (s : string) : bool :=
  match s with EmptyString => true | _ => false end.

(** [_clean_price] *)
Definition _clean_price (price_text : option string) : option Z :=
  match price_text with
  | None => None
  | Some text =>
      if is_empty text then None
      else
        match List.last (List.map Some (Text.findall_runs Text.is_digit_or_comma text)) None with
        | None => None
        | Some run =>
            let price_digits := Text.keep_chars Text.is_digit run in
            if is_empty price_digits then None
            else Some (Text.int_of_digits 0 price_digits)
        end
  end.

(** [_clean_shipping_fee] *)
Definition _clean_shipping_fee (shipping_text : string) : Z :=
  if is_empty shipping_text then 0
  else if Text.py_in FREE_MARK shipping_text then 0
  else
    let fee_digits := Text.keep_chars Text.is_digit shipping_text in
    if is_empty fee_digits then 0 else Text.int_of_digits 0 fee_digits.

(** [re.search(r'残り(\d+)点', text)], giving [int(match.group(1))]. *)
Fixpoint search_remaining (text : string) : option Z :=
  let here :=
    match Text.strip_prefix "残り" text with
    | Some after =>
        let '(digits, tail) := Text.span Text.is_digit after in
        if negb (is_empty digits) && String.prefix "点" tail
        then Some (Text.int_of_digits 0 digits)
        else None
    | None => None
    end in
  match here with
  | Some n => Some n
  | None =>
      match text with
      | EmptyString => None
      | String _ rest => search_remaining rest
      end
  end.

Definition price_of_clean (p : option Z) : pyval :=
  match p with Some z => VInt z | None => VNone end.

(** [_parse_main_page_buybox] *)
Definition _parse_main_page_buybox (soup : main_page_soup) : buybox :=
  let price :=
    match mp_price_span soup with
    | Some text => price_of_clean (_clean_price (Some text))
    | None => VStr NA
    end in
  let condition := if is_int price then NEW_MARK else NA in
  let real_stock :=
    match mp_availability_div soup with
    | Some availability_text =>
        if Text.py_in IN_STOCK availability_text then 30
        else match search_remaining availability_text with
             | Some n => n
             | None => 0
             end
    | None => 0
    end in
  {| bb_price := price;
     bb_seller := default NA (mp_seller_feature soup);
     bb_shipper := default NA (mp_shipper_feature soup);
     bb_real_stock := real_stock;
     bb_shipping_fee := 0;
     bb_condition := condition |}.

(** One iteration of the loop of [_parse_side_panel_offers]: [None] is
    [continue]. *)
Definition parse_offer_el (offer_el : aod_offer) : option offer :=
  match ao_condition_span offer_el with
  | None => None
  | Some span_text =>
      let condition_text := Text.normalize_spaces span_text in
      if Text.py_in USED_MARK condition_text then None
      else
        match _clean_price (ao_price_span offer_el) with
        | None => None
        | Some price =>
            let shipping_fee :=
              match ao_delivery_price_attr offer_el with
              | Some attr => _clean_shipping_fee attr
              | None =>
                  match ao_shipping_span offer_el with
                  | Some text => _clean_shipping_fee text
                  | None => 0
                  end
              end in
            Some {| price := price;
                    shipping_fee := shipping_fee;
                    seller := default NA (ao_seller_el offer_el);
                    shipper := default NA (ao_shipper_el offer_el);
                    condition := condition_text |}
        end
  end.

(** [_parse_side_panel_offers] *)
Fixpoint _parse_side_panel_offers (offer_elements : list aod_offer) : list offer :=
  match offer_elements with
  | [] => []
  | offer_el :: rest =>
      match parse_offer_el offer_el with
      | Some o => o :: _parse_side_panel_offers rest
      | None => _parse_side_panel_offers rest
      end
  end.

(** ** Step 3: merging and deduplication *)

(** The buy-box dictionary as an entry of [all_offers]; defined when
    [isinstance(buybox_data.get('price'), int)]. *)
Definition buybox_offer (buybox_data : buybox) : option offer :=
  match bb_price buybox_data with
  | VInt p =>
      Some {| price := p;
              shipping_fee := bb_shipping_fee buybox_data;
              seller := bb_seller buybox_data;
              shipper := bb_shipper buybox_data;
              condition := bb_condition buybox_data |}
  | _ => None
  end.

Definition all_offers (buybox_data : buybox) (side_offers : list offer) : list offer :=
  match buybox_offer buybox_data with
  | Some o => o :: side_offers
  | None => side_offers
  end.

Abbreviation key := (pyval * string * string)%type.

(** [(offer.get('price'), offer.get('seller'), offer.get('shipper'))] *)
Definition identifier (o : offer) : key :=
  (VInt (price o), seller o, shipper o).

(** The loop filling [unique_offers], with the set [seen] as state. *)
Fixpoint dedup_loop (seen : gset key) (l : list offer) : list offer :=
  match l with
  | [] => []
  | o :: rest =>
      if decide (identifier o ∈ seen)
      then dedup_loop seen rest
      else o :: dedup_loop ({[identifier o]} ∪ seen) rest
  end.

Definition dedup (l : list offer) : list offer := dedup_loop ∅ l.

Definition unique_offers (buybox_data : buybox) (side_offers : list offer) : list offer :=
  dedup (all_offers buybox_data side_offers).

(** The words of the specification: an element is kept when no earlier
    element of the list carries its key. *)
Fixpoint first_occurrences (earlier l : list offer) : list offer :=
  match l with
  | [] => []
  | o :: rest =>
      if decide (Exists (fun o' => identifier o' = identifier o) earlier)
      then first_occurrences (earlier ++ [o]) rest
      else o :: first_occurrences (earlier ++ [o]) rest
  end.

(** ** Fulfilment classification *)

Definition is_fba (o : offer) : bool := Text.py_in FBA_MARK (shipper o).

Definition count_fba (l : list offer) : Z :=
  Z.of_nat (length (List.filter is_fba l)).

(** ** Step 4: the optimal price *)

(** [price + shipping_fee], the sort key and the price compared with the band. *)
Definition total_price (o : offer) : Z := price o + shipping_fee o.

(** [sorted(l, key=...)]: a stable sort, here by insertion. *)
Fixpoint insert_by (o : offer) (l : list offer) : list offer :=
  match l with
  | [] => [o]
  | o' :: rest =>
      if total_price o <=? total_price o' then o :: l
      else o' :: insert_by o rest
  end.

Definition sorted (l : list offer) : list offer := fold_right insert_by [] l.

(** What step 4 leaves in its local variables. *)
Record selection := {
  sel_optimal_price : pyval;
  sel_condition : string;
  sel_shipper : string;
  sel_seller : string;
  sel_effective_sellers_count : Z;
  sel_price_group : list offer
}.

Definition unresolved (price_group : list offer) : selection :=
  {| sel_optimal_price := VStr NA;
     sel_condition := NA;
     sel_shipper := NA;
     sel_seller := NA;
     sel_effective_sellers_count := Z.of_nat (length price_group);
     sel_price_group := price_group |}.

(** [price_lower_bound <= offer_total_price <= price_upper_bound] *)
Definition in_band (lower upper : spec_float) (o : offer) : bool :=
  PyFloat.le_int lower (total_price o) && PyFloat.int_le (total_price o) upper.

(** The index of the median in a sorted list of [n] elements. *)
Definition median_index (n : nat) : nat :=
  if (n mod 2 =? 1)%nat then (n / 2)%nat else (n / 2 - 1)%nat.

(** The branch that trusts the buy-box. *)
Definition buybox_trusted (buybox_data : buybox) : bool :=
  (2 <? bb_real_stock buybox_data) && is_int (bb_price buybox_data)
  && Text.py_in FBA_MARK (bb_shipper buybox_data).

(** The [else] branch of step 4: grouping by price around the third
    cheapest offer.  [None] is an exception. *)
Definition band_rule (unique : list offer) (lower_multiplier upper_multiplier : spec_float)
  : option selection :=
  let sorted_for_grouping := sorted unique in
  if (3 <=? length sorted_for_grouping)%nat then
    base_price_item ← sorted_for_grouping !! 2%nat;
    let base_price := total_price base_price_item in
    price_lower_bound ← PyFloat.int_mul base_price lower_multiplier;
    price_upper_bound ← PyFloat.int_mul base_price upper_multiplier;
    let price_group :=
      List.filter (in_band price_lower_bound price_upper_bound) sorted_for_grouping in
    if (3 <=? length price_group)%nat then
      let sorted_price_group := sorted price_group in
      median_offer ← sorted_price_group !! median_index (length sorted_price_group);
      let optimal_price := total_price median_offer in
      (* the log line formats [optimal_price] with [:.0f] *)
      _ ← PyFloat.of_int optimal_price;
      Some {| sel_optimal_price := VInt optimal_price;
              sel_condition := condition median_offer;
              sel_shipper := shipper median_offer;
              sel_seller := seller median_offer;
              sel_effective_sellers_count := Z.of_nat (length price_group);
              sel_price_group := price_group |}
    else Some (unresolved price_group)
  else Some (unresolved sorted_for_grouping).

Definition step4 (buybox_data : buybox) (unique : list offer)
    (lower_multiplier upper_multiplier : spec_float) : option selection :=
  match bb_price buybox_data with
  | VInt p =>
      if buybox_trusted buybox_data then
        Some {| sel_optimal_price := VInt (p + bb_shipping_fee buybox_data);
                sel_condition := bb_condition buybox_data;
                sel_shipper := bb_shipper buybox_data;
                sel_seller := bb_seller buybox_data;
                sel_effective_sellers_count := Z.of_nat (length unique);
                sel_price_group := unique |}
      else band_rule unique lower_multiplier upper_multiplier
  | _ => band_rule unique lower_multiplier upper_multiplier
  end.

(** ** Step 5: the offers shown next to the buy-box *)

Definition buybox_identifier (buybox_data : buybox) : key :=
  (bb_price buybox_data, bb_seller buybox_data, bb_shipper buybox_data).

Definition display_offers (buybox_data : buybox) (price_group : list offer) : list offer :=
  List.filter (fun o => negb (bool_decide (identifier o = buybox_identifier buybox_data)))
    price_group.

(** ** The result dictionaries *)

Definition buybox_info_of (buybox_data : buybox) : buybox_info_t :=
  {| bi_price := bb_price buybox_data;
     bi_seller := bb_seller buybox_data;
     bi_shipper := bb_shipper buybox_data;
     bi_real_stock := VInt (bb_real_stock buybox_data);
     bi_shipping_fee := Some (bb_shipping_fee buybox_data);
     bi_condition := bb_condition buybox_data |}.

(** [_get_error_result] *)
Definition _get_error_result : product_result :=
  {| status := "error";
     real_stock := VStr ERR;
     total_offers := VStr ERR;
     fba_count := VStr ERR;
     fbm_count := VStr ERR;
     inventory_score := VStr ERR;
     effective_sellers_count := VStr ERR;
     buybox_info :=
       {| bi_price := VStr ERR; bi_seller := ERR; bi_shipper := ERR;
          bi_real_stock := VStr ERR; bi_shipping_fee := None; bi_condition := ERR |};
     offers := [];
     optimal_price := VStr ERR;
     optimal_price_condition := ERR;
     optimal_price_shipper := ERR;
     optimal_price_seller := ERR |}.

(** Steps 3 to 5 of [get_product_data], from the parsed pages on. *)
Definition aggregate (buybox_data : buybox) (side_offers : list offer)
    (lower_multiplier upper_multiplier : spec_float) : option product_result :=
  let unique := unique_offers buybox_data side_offers in
  let total_offers_count := Z.of_nat (length unique) in
  let fba := count_fba unique in
  let fbm := total_offers_count - fba in
  let score := fba * 2 + fbm in
  sel ← step4 buybox_data unique lower_multiplier upper_multiplier;
  Some {| status := "success";
          real_stock := VInt (bb_real_stock buybox_data);
          total_offers := VInt total_offers_count;
          fba_count := VInt fba;
          fbm_count := VInt fbm;
          inventory_score := VInt score;
          effective_sellers_count := VInt (sel_effective_sellers_count sel);
          buybox_info := buybox_info_of buybox_data;
          offers := sorted (display_offers buybox_data (sel_price_group sel));
          optimal_price := sel_optimal_price sel;
          optimal_price_condition := sel_condition sel;
          optimal_price_shipper := sel_shipper sel;
          optimal_price_seller := sel_seller sel |}.

(** The body of the [try] block. *)
Definition try_product_data (driver : webdriver) (main_page_url side_panel_url : string)
    (lower_multiplier upper_multiplier : spec_float) : option product_result :=
  main_page_soup ← load_main_page driver main_page_url;
  let buybox_data := _parse_main_page_buybox main_page_soup in
  side_panel_soup ← load_side_panel driver side_panel_url;
  let side_offers := _parse_side_panel_offers side_panel_soup in
  aggregate buybox_data side_offers lower_multiplier upper_multiplier.

(** [get_product_data]; [self_driver] is [None] before [initialize_driver]. *)
Definition get_product_data (self_driver : option webdriver)
    (main_page_url side_panel_url : string)
    (lower_multiplier upper_multiplier : spec_float) : product_result :=
  match self_driver with
  | None => _get_error_result
  | Some driver =>
      match try_product_data driver main_page_url side_panel_url
              lower_multiplier upper_multiplier with
      | Some result => result
      | None => _get_error_result
      end
  end.

(** ** The output row ([run_in_thread] of the GUI) *)

Module Gui.

Definition MAX_OFFERS_TO_DISPLAY : nat := 10.

Definition SUFFICIENT : string := "十分".
Definition INSUFFICIENT : string := "不十分".

Definition str_of_nat (n : nat) : string :=
  NilEmpty.string_of_uint (Nat.to_uint n).

(** The header row written by [_check_and_create_headers]. *)
Definition headers : list string :=
  ["最適価格"; "最適価格コンディション"; "最適価格出荷元"; "最適価格販売元";
   "在庫判定"; "在庫スコア"; "実在庫数"; "有効出品者数"; "総出品者数"; "FBA数"; "FBM数";
   "購入ボックス価格"; "購入ボックスコンディション"; "購入ボックス出荷元";
   "購入ボックス販売元"]%string
  ++ List.flat_map
       (fun i =>
          let label := ("出品" ++ str_of_nat (S i))%string in
          [label ++ " 価格"; label ++ " 送料"; label ++ " コンディション";
           label ++ " 出荷元"; label ++ " 販売元"]%string)
       (List.seq 0 MAX_OFFERS_TO_DISPLAY).

Definition num_of_output_cols : nat := length headers.

(** [cells_to_clear], the row of empty cells written before the values. *)
Definition cells_to_clear : list pyval :=
  List.repeat (VStr EmptyString) num_of_output_cols.

(** The stock verdict computed from a successful result. *)
Definition stock_sufficient (data : product_result) : bool :=
  let is_buybox_fba := Text.py_in FBA_MARK (bi_shipper (buybox_info data)) in
  (match real_stock data with
   | VInt n => (2 <? n) && is_buybox_fba
   | _ => false
   end)
  || (match inventory_score data with
      | VInt score => 4 <=? score
      | _ => false
      end).

Definition stock_status (data : product_result) : string :=
  if stock_sufficient data then SUFFICIENT else INSUFFICIENT.

Definition offer_cells (o : offer) : list pyval :=
  [VInt (price o); VInt (shipping_fee o); VStr (condition o);
   VStr (shipper o); VStr (seller o)].

(** [values_to_write] *)
Definition values_to_write (data : product_result) : list pyval :=
  if String.eqb (status data) "success" then
    let buybox := buybox_info data in
    [optimal_price data;
     VStr (optimal_price_condition data);
     VStr (optimal_price_shipper data);
     VStr (optimal_price_seller data);
     VStr (stock_status data); inventory_score data; real_stock data;
     effective_sellers_count data; total_offers data;
     fba_count data; fbm_count data;
     bi_price buybox; VStr (bi_condition buybox);
     VStr (bi_shipper buybox); VStr (bi_seller buybox)]
    ++ List.flat_map offer_cells (List.firstn MAX_OFFERS_TO_DISPLAY (offers data))
  else List.repeat (VStr ERR) 15.

(** The cells of the output range after the two [sheet.update] calls:
    the values, then what is left of the cleared row. *)
Definition written_row (data : product_result) : list pyval :=
  let values := values_to_write data in
  values ++ List.skipn (length values) cells_to_clear.

End Gui.

(** ** Vocabulary of the statements *)

(** Ascending order of total price. *)
Definition le_total (a b : offer) : Prop := total_price a <= total_price b.

(** The condition text does not carry the marker of a used item. *)
Definition not_used (o : offer) : Prop := Text.py_in USED_MARK (condition o) = false.


Module FloatSpec.







End FloatSpec.

(** ** Sample pages *)

Module Samples.

Definition url : string := "https://www.amazon.co.jp/dp/B000000000".

(** A session that serves the same two pages whatever the URL. *)
Definition static_driver (m : main_page_soup) (s : list aod_offer) : webdriver :=
  {| load_main_page := fun _ => Some m; load_side_panel := fun _ => Some s |}.

(** A session whose main page never shows its container. *)
Definition timeout_driver : webdriver :=
  {| load_main_page := fun _ => None; load_side_panel := fun _ => Some [] |}.

Definition panel_entry (cond price_text fee_text seller shipper : string) : aod_offer :=
  {| ao_condition_span := Some cond;
     ao_price_span := Some price_text;
     ao_delivery_price_attr := None;
     ao_shipping_span := Some fee_text;
     ao_seller_el := Some seller;
     ao_shipper_el := Some shipper |}.

Definition page_no_buybox : main_page_soup :=
  {| mp_price_span := None; mp_availability_div := None;
     mp_seller_feature := None; mp_shipper_feature := None |}.

Definition page_trusted : main_page_soup :=
  {| mp_price_span := Some "￥1,000";
     mp_availability_div := Some "残り5点 ご注文はお早めに";
     mp_seller_feature := Some "Amazon.co.jp";
     mp_shipper_feature := Some "Amazon" |}.

(** A used entry, a copy of the buy-box and a repeated listing. *)
Definition panel_mixed : list aod_offer :=
  [panel_entry "新品" "￥1,000" "無料" "Amazon.co.jp" "Amazon";
   panel_entry "中古品 - 良い" "￥500" "￥350" "古本屋" "古本屋";
   panel_entry "新品" "￥1,200" "￥0" "店A" "店A";
   panel_entry "新品" "￥900" "配送料 ￥350" "店B" "Amazon";
   panel_entry "新品" "￥1,200" "無料" "店A" "店A"].

Definition panel_four : list aod_offer :=
  [panel_entry "新品" "￥130" "無料" "店D" "店D";
   panel_entry "新品" "￥100" "無料" "店A" "Amazon";
   panel_entry "新品" "￥120" "無料" "店C" "店C";
   panel_entry "新品" "￥110" "無料" "店B" "店B"].


Definition panel_with_fees : list aod_offer :=
  [panel_entry "新品" "￥100" "￥10" "店A" "店A";
   panel_entry "新品" "￥105" "￥10" "店B" "店B";
   panel_entry "新品" "￥120" "無料" "店C" "店C"].


End Samples.

(** ** Character classes of whole strings *)

(** Every character of [s] is of the class [cls]. *)
Fixpoint all_chars (cls : ascii -> bool) (s : string) : bool :=
  match s with
  | EmptyString => true
  | String c rest => cls c && all_chars cls rest
  end.



(** How many offers of [l] are cheaper, or dearer, than the total [t]. *)
Definition count_cheaper (t : Z) (l : list offer) : nat :=
  length (List.filter (fun o => total_price o <? t) l).

Definition count_dearer (t : Z) (l : list offer) : nat :=
  length (List.filter (fun o => t <? total_price o) l).

(** The offers of [l] whose total is [t], in the order of [l]. *)
Definition with_total (t : Z) (l : list offer) : list offer :=
  List.filter (fun o => total_price o =? t) l.

(** ** The row loop of [run_in_thread] *)

Module Runner.

(** [s.lstrip()]: [skip] counts the bytes of a separator still to drop. *)
Fixpoint lstrip_loop (s : string) (skip : nat) : string :=
  match s with
  | EmptyString => EmptyString
  | String c rest =>
      match skip with
      | S k => lstrip_loop rest k
      | O =>
          match Text.ws_width s with
          | O => s
          | S k => lstrip_loop rest k
          end
      end
  end.

Definition py_lstrip (s : string) : string := lstrip_loop s 0.

(** [s.rstrip()]: what is left is dropped once it is all separators. *)
Fixpoint py_rstrip (s : string) : string :=
  match s with
  | EmptyString => EmptyString
  | String c rest =>
      if is_empty (py_lstrip s) then EmptyString else String c (py_rstrip rest)
  end.

(** [s.strip()] *)
Definition py_strip (s : string) : string := py_rstrip (py_lstrip s).

(** [url and url.strip().startswith("http")] *)
Definition url_ok (url : string) : bool :=
  negb (is_empty url) && String.prefix "http" (py_strip url).

(** The settings read from the form; the column numbers come from
    [a1_to_rowcol] and start at 1. *)
Record config := {
  main_url_col_num : positive;
  side_url_col_num : positive;
  start_row : nat;
  price_range_lower : spec_float;
  price_range_upper : spec_float
}.

(** What [sheet.row_values(row)] does. *)
Inductive read_outcome :=
| RowValues (values : list string)
| ApiError400
| ReadRaises.

(** The worksheet as the loop sees it: reading a row, and whether each of
    the two [sheet.update] calls of a row raises. *)
Record worksheet := {
  row_values : nat -> read_outcome;
  clear_raises : nat -> bool;
  write_raises : nat -> bool
}.

(** The updates sent to the sheet. *)
Inductive update :=
| Cleared (row : nat)
| Wrote (row : nat) (values : list pyval).

(** [row_values[col_num - 1] if len(row_values) >= col_num else None] *)
Definition cell (values : list string) (col_num : positive) : option string :=
  if (Pos.to_nat col_num <=? length values)%nat
  then values !! (Pos.to_nat col_num - 1)%nat
  else None.

(** The two URLs of a row, when neither is missing, empty or without the
    "http" prefix. *)
Definition row_urls (cfg : config) (values : list string) : option (string * string) :=
  match cell values (main_url_col_num cfg), cell values (side_url_col_num cfg) with
  | Some main_page_url, Some side_panel_url =>
      if url_ok main_page_url && url_ok side_panel_url
      then Some (main_page_url, side_panel_url)
      else None
  | _, _ => None
  end.

Record loop_state := {
  current_row : nat;
  consecutive_empty_count : nat;
  updates : list update
}.

(** How one pass through the body of [while True] ends. *)
Inductive iteration :=
| Continue (st : loop_state)
| Break (st : loop_state)
| Raise (st : loop_state).

(** The values written for a row with valid URLs. *)
Definition row_output (driver : webdriver) (cfg : config)
    (main_page_url side_panel_url : string) : list pyval :=
  Gui.values_to_write
    (get_product_data (Some driver) main_page_url side_panel_url
       (price_range_lower cfg) (price_range_upper cfg)).

(** The body of the loop. *)
Definition iterate (driver : webdriver) (cfg : config) (sheet : worksheet)
    (st : loop_state) : iteration :=
  let row := current_row st in
  match row_values sheet row with
  | ApiError400 => Break st
  | ReadRaises => Raise st
  | RowValues values =>
      match row_urls cfg values with
      | None =>
          let count := S (consecutive_empty_count st) in
          if (10 <=? count)%nat
          then Break {| current_row := row;
                        consecutive_empty_count := count;
                        updates := updates st |}
          else Continue {| current_row := S row;
                           consecutive_empty_count := count;
                           updates := updates st |}
      | Some (main_page_url, side_panel_url) =>
          let values_to_write := row_output driver cfg main_page_url side_panel_url in
          if clear_raises sheet row then
            Raise {| current_row := row;
                     consecutive_empty_count := 0;
                     updates := updates st |}
          else if write_raises sheet row then
            Raise {| current_row := row;
                     consecutive_empty_count := 0;
                     updates := updates st ++ [Cleared row] |}
          else
            Continue {| current_row := S row;
                        consecutive_empty_count := 0;
                        updates := updates st ++ [Cleared row; Wrote row values_to_write] |}
      end
  end.

(** [while True], with a bound on the number of passes; [None] when the
    bound is reached before the loop ends. *)
Fixpoint while_true (fuel : nat) (driver : webdriver) (cfg : config) (sheet : worksheet)
    (st : loop_state) : option loop_state :=
  match fuel with
  | O => None
  | S fuel' =>
      match iterate driver cfg sheet st with
      | Continue st' => while_true fuel' driver cfg sheet st'
      | Break st' => Some st'
      | Raise st' => Some st'
      end
  end.

Definition initial_state (cfg : config) : loop_state :=
  {| current_row := start_row cfg; consecutive_empty_count := 0; updates := [] |}.

(** [run_in_thread] once the sheet is open: nothing happens when the
    header row could not be written or the driver did not start. *)
Definition run_in_thread (fuel : nat) (headers_written : bool)
    (driver : option webdriver) (cfg : config) (sheet : worksheet) : option (list update) :=
  match headers_written, driver with
  | true, Some d => option_map updates (while_true fuel d cfg sheet (initial_state cfg))
  | _, _ => Some []
  end.

(** Whether a row holds two valid URLs. *)
Definition row_is_valid (cfg : config) (sheet : worksheet) (row : nat) : bool :=
  match row_values sheet row with
  | RowValues values => bool_decide (is_Some (row_urls cfg values))
  | _ => false
  end.

(** The updates of a row when nothing raises. *)
Definition row_updates (driver : webdriver) (cfg : config) (sheet : worksheet)
    (row : nat) : list update :=
  match row_values sheet row with
  | RowValues values =>
      match row_urls cfg values with
      | Some (main_page_url, side_panel_url) =>
          [Cleared row; Wrote row (row_output driver cfg main_page_url side_panel_url)]
      | None => []
      end
  | _ => []
  end.

(** Whether a row is read and does not hold two valid URLs. *)
Definition row_is_skipped (cfg : config) (sheet : worksheet) (row : nat) : bool :=
  match row_values sheet row with
  | RowValues values => negb (bool_decide (is_Some (row_urls cfg values)))
  | _ => false
  end.

(** Whether reading a row fails. *)
Definition row_is_refused (sheet : worksheet) (row : nat) : bool :=
  match row_values sheet row with
  | RowValues _ => false
  | _ => true
  end.

(** Whether both updates of a row go through. *)
Definition row_is_written (sheet : worksheet) (row : nat) : bool :=
  negb (clear_raises sheet row) && negb (write_raises sheet row).

(** What reaches the sheet for the row at which the loop ends. *)
Definition interrupted_updates (cfg : config) (sheet : worksheet) (row : nat) : list update :=
  if row_is_valid cfg sheet row && negb (clear_raises sheet row)
  then [Cleared row] else [].

(** A sheet of [rows], with nothing below them. *)
Definition sheet_of (rows : list (list string)) : worksheet :=
  {| row_values := fun row =>
       match row with
       | O => ApiError400
       | S i => RowValues (default [] (rows !! i))
       end;
     clear_raises := fun _ => false;
     write_raises := fun _ => false |}.

Definition sample_config : config :=
  {| main_url_col_num := 1;
     side_url_col_num := 2;
     start_row := 2;
     price_range_lower := PyFloat.f0_85;
     price_range_upper := PyFloat.f1_15 |}.

Definition sample_rows : list (list string) :=
  [["メインURL"; "サイドURL"];
   ["https://www.amazon.co.jp/dp/B000000000"; " https://www.amazon.co.jp/gp/aod/B000000000 "];
   ["商品メモ"];
   ["https://www.amazon.co.jp/dp/B000000001"; "https://www.amazon.co.jp/gp/aod/B000000001"]]%string.

End Runner.

(** ** Sample pages and sheets for the further properties *)

Module MoreSamples.

(** Two offers at a total of 110 yen, the dearer listing first. *)
Definition panel_ties : list aod_offer :=
  [Samples.panel_entry "新品" "￥110" "無料" "店B" "店B";
   Samples.panel_entry "新品" "￥100" "無料" "店A" "Amazon";
   Samples.panel_entry "新品" "￥100" "￥10" "店C" "店C";
   Samples.panel_entry "新品" "￥120" "無料" "店D" "店D"].

Definition driver : webdriver := Samples.static_driver Samples.page_trusted Samples.panel_mixed.

(** The loop at a row of [Runner.sample_rows], nothing written yet. *)
Definition at_row (row : nat) : Runner.loop_state :=
  {| Runner.current_row := row;
     Runner.consecutive_empty_count := 0;
     Runner.updates := [] |}.

End MoreSamples.

(** * Properties *)

Create HintDb offers discriminated.

(** ** Binary64 rounding against integer bounds *)

Module PyFloatFacts.
Import PyFloat FloatSpec.




























(** ** The result of rounding an exact product or integer *)

















End PyFloatFacts.

(** ** The stable sort *)

Lemma insert_by_perm o l : Permutation (insert_by o l) (o :: l).
Proof.
  induction l as [|o' rest IH]; simpl; [reflexivity|].
  destruct (total_price o <=? total_price o'); [reflexivity|].
  rewrite IH. apply perm_swap.
Qed.

Lemma sorted_perm l : Permutation (sorted l) l.
Proof.
  induction l as [|o rest IH]; simpl; [reflexivity|].
  rewrite insert_by_perm. now constructor.
Qed.

Lemma sorted_length l : length (sorted l) = length l.
Proof. apply Permutation_length, sorted_perm. Qed.

Lemma sorted_In o l : In o (sorted l) <-> In o l.
Proof.
  split; apply Permutation_in; [|symmetry]; apply sorted_perm.
Qed.

Lemma insert_by_sorted o l :
  StronglySorted le_total l -> StronglySorted le_total (insert_by o l).
Proof.
  induction 1 as [|o' rest Hs IH Hall]; simpl.
  - repeat constructor.
  - destruct (Z.leb_spec (total_price o) (total_price o')) as [Hle|Hgt].
    + constructor; [now constructor|].
      constructor; [exact Hle|].
      eapply List.Forall_impl; [|exact Hall].
      unfold le_total; intros; lia.
    + constructor; [exact IH|].
      rewrite insert_by_perm.
      constructor; [unfold le_total; lia | exact Hall].
Qed.

Lemma sorted_sorted l : StronglySorted le_total (sorted l).
Proof.
  induction l; simpl; [constructor | now apply insert_by_sorted].
Qed.

(** Sorting a list that is already in order leaves it as it is. *)
Lemma sorted_id l : StronglySorted le_total l -> sorted l = l.
Proof.
  induction 1 as [|o rest Hs IH Hall]; simpl; [reflexivity|].
  rewrite IH. destruct Hall as [|o' rest' Hle _]; simpl; [reflexivity|].
  unfold le_total in Hle.
  destruct (Z.leb_spec (total_price o) (total_price o')); [reflexivity | lia].
Qed.

Lemma filter_sorted (f : offer -> bool) l :
  StronglySorted le_total l -> StronglySorted le_total (List.filter f l).
Proof.
  induction 1 as [|o rest Hs IH Hall]; simpl; [constructor|].
  destruct (f o); [|exact IH].
  constructor; [exact IH|].
  rewrite Forall_forall in Hall |- *.
  intros x Hx. apply Hall. apply list_elem_of_In, filter_In in Hx.
  apply list_elem_of_In, Hx.
Qed.

#[global] Hint Resolve sorted_sorted sorted_perm filter_sorted : offers.

(** The eligible set, a filter of the sorted offers, is in order already:
    the second sort of step 4 leaves it as it is. *)
Lemma eligible_already_sorted (f : offer -> bool) l :
  sorted (List.filter f (sorted l)) = List.filter f (sorted l).
Proof. apply sorted_id; auto with offers. Qed.

(** ** Deduplication *)

Lemma dedup_loop_elem seen l o :
  In o (dedup_loop seen l) -> (identifier o ∉ seen) /\ In o l.
Proof.
  revert seen; induction l as [|o' rest IH]; simpl; intros seen Hin; [tauto|].
  destruct (decide (identifier o' ∈ seen)) as [Hseen|Hnew].
  - pose proof (IH _ Hin) as [? ?]; tauto.
  - destruct Hin as [->|Hin]; [tauto|].
    pose proof (IH _ Hin) as [Hu ?]. apply not_elem_of_union in Hu as [_ ?].
    split; [assumption | tauto].
Qed.

Lemma dedup_loop_nodup seen l : NoDup (List.map identifier (dedup_loop seen l)).
Proof.
  revert seen; induction l as [|o rest IH]; simpl; intros seen; [constructor|].
  destruct (decide (identifier o ∈ seen)); [apply IH|].
  simpl; constructor; [|apply IH].
  rewrite list_elem_of_In, in_map_iff. intros (o' & Heq & Hin).
  destruct (dedup_loop_elem _ _ _ Hin) as [Hnot _].
  rewrite Heq in Hnot. apply Hnot, elem_of_union_l, elem_of_singleton; reflexivity.
Qed.

Lemma dedup_loop_sublist seen l : sublist (dedup_loop seen l) l.
Proof.
  revert seen; induction l as [|o rest IH]; simpl; intros seen; [constructor|].
  destruct (decide (identifier o ∈ seen)); [apply sublist_cons | apply sublist_skip]; apply IH.
Qed.

Lemma dedup_loop_covers seen l o :
  In o l ->
  identifier o ∈ seen \/ In (identifier o) (List.map identifier (dedup_loop seen l)).
Proof.
  revert seen; induction l as [|o' rest IH]; simpl; intros seen Hin; [tauto|].
  destruct Hin as [->|Hin].
  - destruct (decide (identifier o ∈ seen)); [now left | right; simpl; now left].
  - destruct (decide (identifier o' ∈ seen)); [now apply IH|].
    destruct (IH ({[identifier o']} ∪ seen) Hin) as [Hs|Hd].
    + apply elem_of_union in Hs as [Hs|Hs]; [|now left].
      apply elem_of_singleton in Hs. right; simpl; rewrite Hs; now left.
    + right; simpl; now right.
Qed.

(** Running the loop again over its own output, with a set [seen'] that
    holds none of the keys kept, changes nothing. *)
Lemma dedup_loop_fixed seen seen' l :
  (forall o, In o (dedup_loop seen l) -> identifier o ∉ seen') ->
  dedup_loop seen' (dedup_loop seen l) = dedup_loop seen l.
Proof.
  revert seen seen'; induction l as [|o rest IH]; simpl; intros seen seen' Hfresh;
    [reflexivity|].
  destruct (decide (identifier o ∈ seen)) as [Hseen|Hnew]; [now apply IH|].
  simpl. destruct (decide (identifier o ∈ seen')) as [Hbad|_].
  - exfalso. apply (Hfresh o); [now left | exact Hbad].
  - f_equal. apply IH. intros o' Hin.
    pose proof (dedup_loop_elem _ _ _ Hin) as [Hnot _].
    specialize (Hfresh o' (or_intror Hin)).
    apply not_elem_of_union in Hnot as [Hne _].
    apply not_elem_of_union; split; assumption.
Qed.

Lemma dedup_loop_first_occurrences seen earlier l :
  (forall k, k ∈ seen <-> In k (List.map identifier earlier)) ->
  dedup_loop seen l = first_occurrences earlier l.
Proof.
  revert seen earlier; induction l as [|o rest IH]; simpl; intros seen earlier Hseen;
    [reflexivity|].
  assert (Hnext : forall k, k ∈ {[identifier o]} ∪ seen
                       <-> In k (List.map identifier (earlier ++ [o]))).
  { intros k. rewrite List.map_app, in_app_iff, elem_of_union, Hseen. simpl.
    rewrite elem_of_singleton. intuition congruence. }
  assert (Hex : identifier o ∈ seen
                <-> Exists (fun o' => identifier o' = identifier o) earlier).
  { rewrite Hseen, List.Exists_exists, in_map_iff. firstorder. }
  destruct (decide (identifier o ∈ seen)) as [Hin|Hout];
    destruct (decide (Exists _ earlier)) as [He|Hne]; try tauto.
  - apply IH. intros k. rewrite <- Hnext, elem_of_union, elem_of_singleton.
    split; [tauto | intros [->|?]; assumption].
  - f_equal. now apply IH.
Qed.

(** ** The page extractor *)

Lemma int_of_digits_nonneg s acc :
  0 <= acc -> 0 <= Text.int_of_digits acc (Text.keep_chars Text.is_digit s).
Proof.
  revert acc; induction s as [|c rest IH]; simpl; intros acc Hacc; [exact Hacc|].
  destruct (Text.is_digit c) eqn:Hd; [|now apply IH].
  simpl. apply IH. unfold Text.is_digit in Hd.
  apply andb_prop in Hd as [Hlo _]. apply Nat.leb_le in Hlo. lia.
Qed.

Lemma _clean_price_nonneg text z : _clean_price text = Some z -> 0 <= z.
Proof.
  unfold _clean_price. destruct text as [text|]; [|discriminate].
  destruct (is_empty text); [discriminate|].
  destruct (List.last _ None) as [run|]; [|discriminate].
  destruct (is_empty _); [discriminate|].
  intros [= <-]. now apply int_of_digits_nonneg.
Qed.

Lemma _clean_shipping_fee_nonneg text : 0 <= _clean_shipping_fee text.
Proof.
  unfold _clean_shipping_fee.
  destruct (is_empty text); [lia|]. destruct (Text.py_in _ _); [lia|].
  destruct (is_empty _); [lia|]. now apply int_of_digits_nonneg.
Qed.

(** What one panel entry yields when it is kept. *)
Lemma parse_offer_el_kept offer_el o :
  parse_offer_el offer_el = Some o ->
  not_used o /\ 0 <= price o /\ 0 <= shipping_fee o
  /\ exists span_text,
       ao_condition_span offer_el = Some span_text
       /\ condition o = Text.normalize_spaces span_text.
Proof.
  unfold parse_offer_el, not_used.
  destruct (ao_condition_span offer_el) as [span_text|]; [|discriminate].
  destruct (Text.py_in USED_MARK _) eqn:Hused; [discriminate|].
  destruct (_clean_price _) as [p|] eqn:Hp; [|discriminate].
  intros [= <-]; simpl. repeat split.
  - exact Hused.
  - eapply _clean_price_nonneg, Hp.
  - destruct (ao_delivery_price_attr offer_el); [apply _clean_shipping_fee_nonneg|].
    destruct (ao_shipping_span offer_el); [apply _clean_shipping_fee_nonneg | lia].
  - now exists span_text.
Qed.

(** An entry whose condition text carries the marker of a used item is
    skipped, whatever its other fields hold. *)
Lemma parse_offer_el_skips_used offer_el span_text :
  ao_condition_span offer_el = Some span_text ->
  Text.py_in USED_MARK (Text.normalize_spaces span_text) = true ->
  parse_offer_el offer_el = None.
Proof.
  intros Hspan Hused. unfold parse_offer_el. rewrite Hspan, Hused. reflexivity.
Qed.

Lemma _parse_side_panel_offers_kept offer_elements :
  Forall (fun o => not_used o /\ 0 <= price o /\ 0 <= shipping_fee o)
    (_parse_side_panel_offers offer_elements).
Proof.
  induction offer_elements as [|offer_el rest IH]; simpl; [constructor|].
  destruct (parse_offer_el offer_el) as [o|] eqn:Ho; [|exact IH].
  constructor; [|exact IH].
  apply parse_offer_el_kept in Ho. tauto.
Qed.

Lemma _parse_main_page_buybox_condition soup :
  let buybox_data := _parse_main_page_buybox soup in
  (is_int (bb_price buybox_data) = true /\ bb_condition buybox_data = NEW_MARK)
  \/ (is_int (bb_price buybox_data) = false /\ bb_condition buybox_data = NA).
Proof.
  unfold _parse_main_page_buybox; simpl.
  destruct (is_int _); [left | right]; split; reflexivity.
Qed.

Lemma _parse_main_page_buybox_price soup p :
  bb_price (_parse_main_page_buybox soup) = VInt p -> 0 <= p.
Proof.
  unfold _parse_main_page_buybox; cbn [bb_price].
  destruct (mp_price_span soup) as [text|]; [|discriminate].
  destruct (_clean_price (Some text)) as [z|] eqn:Hz; [|discriminate].
  intros [= <-]. eapply _clean_price_nonneg, Hz.
Qed.

Lemma buybox_offer_kept soup o :
  buybox_offer (_parse_main_page_buybox soup) = Some o ->
  not_used o /\ 0 <= price o /\ 0 <= shipping_fee o.
Proof.
  pose proof (_parse_main_page_buybox_condition soup) as Hcond. cbv zeta in Hcond.
  pose proof (_parse_main_page_buybox_price soup) as Hprice.
  assert (Hfee : bb_shipping_fee (_parse_main_page_buybox soup) = 0) by reflexivity.
  set (buybox_data := _parse_main_page_buybox soup) in *. clearbody buybox_data.
  unfold buybox_offer. destruct (bb_price buybox_data) as [p| |]; try discriminate.
  intros [= <-]. unfold not_used. cbn [condition price shipping_fee].
  destruct Hcond as [[_ ->]|[Hint _]]; [|discriminate].
  repeat split; [auto | lia].
Qed.

Lemma dedup_In l o : In o (dedup l) -> In o l.
Proof. intros Hin. now apply dedup_loop_elem in Hin. Qed.

Lemma unique_offers_kept main_soup side_soup :
  Forall (fun o => not_used o /\ 0 <= price o /\ 0 <= shipping_fee o)
    (unique_offers (_parse_main_page_buybox main_soup) (_parse_side_panel_offers side_soup)).
Proof.
  apply List.Forall_forall. intros o Hin. apply dedup_In in Hin.
  unfold all_offers in Hin.
  pose proof (_parse_side_panel_offers_kept side_soup) as Hside.
  rewrite List.Forall_forall in Hside.
  destruct (buybox_offer _) as [b|] eqn:Hb; [|now apply Hside].
  destruct Hin as [<-|Hin]; [now apply buybox_offer_kept in Hb | now apply Hside].
Qed.

(** ** Step 4, branch by branch *)

Lemma step4_trusted buybox_data unique lo hi p :
  buybox_trusted buybox_data = true -> bb_price buybox_data = VInt p ->
  step4 buybox_data unique lo hi
  = Some {| sel_optimal_price := VInt (p + bb_shipping_fee buybox_data);
            sel_condition := bb_condition buybox_data;
            sel_shipper := bb_shipper buybox_data;
            sel_seller := bb_seller buybox_data;
            sel_effective_sellers_count := Z.of_nat (length unique);
            sel_price_group := unique |}.
Proof. intros Ht Hp. unfold step4. rewrite Hp, Ht. reflexivity. Qed.

Lemma step4_untrusted buybox_data unique lo hi :
  buybox_trusted buybox_data = false ->
  step4 buybox_data unique lo hi = band_rule unique lo hi.
Proof. intros Ht. unfold step4. rewrite Ht. destruct (bb_price buybox_data); reflexivity. Qed.





(** The offers step 4 groups are offers it was given. *)
Lemma step4_price_group buybox_data unique lo hi sel :
  step4 buybox_data unique lo hi = Some sel ->
  forall o, In o (sel_price_group sel) -> In o unique.
Proof.
  assert (Hband : band_rule unique lo hi = Some sel ->
                  forall o, In o (sel_price_group sel) -> In o unique).
  { unfold band_rule. destruct (3 <=? _)%nat.
    - destruct (sorted unique !! 2%nat) as [ref|]; [|discriminate]. cbn [mbind option_bind].
      destruct (PyFloat.int_mul _ lo) as [lower|]; [|discriminate]. cbn [mbind option_bind].
      destruct (PyFloat.int_mul _ hi) as [upper|]; [|discriminate]. cbn [mbind option_bind].
      destruct (3 <=? _)%nat.
      + destruct (_ !! _) as [median_offer|]; [|discriminate]. cbn [mbind option_bind].
        destruct (PyFloat.of_int _); [|discriminate]. cbn [mbind option_bind].
        intros [= <-] o Hin. cbn [sel_price_group] in Hin.
        apply filter_In in Hin as [Hin _]. now apply sorted_In.
      + intros [= <-] o Hin. cbn [sel_price_group unresolved] in Hin.
        apply filter_In in Hin as [Hin _]. now apply sorted_In.
    - intros [= <-] o Hin. now apply sorted_In. }
  unfold step4. destruct (bb_price buybox_data); try exact Hband.
  destruct (buybox_trusted buybox_data); [|exact Hband].
  intros [= <-] o Hin. exact Hin.
Qed.


(** A resolved optimal price of the band rule is the total price of one
    of the offers given. *)
Lemma band_rule_optimal unique lo hi sel :
  band_rule unique lo hi = Some sel ->
  sel_optimal_price sel = VStr NA
  \/ exists o, In o unique /\ sel_optimal_price sel = VInt (total_price o).
Proof.
  unfold band_rule. destruct (3 <=? _)%nat; [|intros [= <-]; now left].
  destruct (sorted unique !! 2%nat) as [ref|]; [|discriminate]. cbn [mbind option_bind].
  destruct (PyFloat.int_mul _ lo) as [lower|]; [|discriminate]. cbn [mbind option_bind].
  destruct (PyFloat.int_mul _ hi) as [upper|]; [|discriminate]. cbn [mbind option_bind].
  destruct (3 <=? _)%nat; [|intros [= <-]; now left].
  destruct (_ !! _) as [median_offer|] eqn:Hmed; [|discriminate]. cbn [mbind option_bind].
  destruct (PyFloat.of_int _); [|discriminate]. cbn [mbind option_bind].
  intros [= <-]. right. exists median_offer. split; [|reflexivity].
  apply list_elem_of_lookup_2, list_elem_of_In in Hmed.
  apply (proj1 (sorted_In _ _)), filter_In in Hmed. now apply sorted_In.
Qed.

Lemma dedup_head o l : In o (dedup (o :: l)).
Proof.
  unfold dedup; simpl. destruct (decide (identifier o ∈ ∅)) as [Hin|_]; [|now left].
  now apply elem_of_empty in Hin.
Qed.


(** ** Assembling the result *)


Lemma aggregate_inv buybox_data side_offers lo hi r :
  aggregate buybox_data side_offers lo hi = Some r ->
  let unique := unique_offers buybox_data side_offers in
  exists sel,
    step4 buybox_data unique lo hi = Some sel
    /\ status r = "success"%string
    /\ optimal_price r = sel_optimal_price sel
    /\ offers r = sorted (display_offers buybox_data (sel_price_group sel))
    /\ real_stock r = VInt (bb_real_stock buybox_data)
    /\ inventory_score r
       = VInt (count_fba unique * 2 + (Z.of_nat (length unique) - count_fba unique))
    /\ buybox_info r = buybox_info_of buybox_data.
Proof.
  unfold aggregate. destruct (step4 _ _ lo hi) as [sel|]; [|discriminate].
  cbn [mbind option_bind]. intros [= <-]. exists sel. repeat split.
Qed.

Lemma get_product_data_total self_driver main_page_url side_panel_url lo hi :
  let r := get_product_data self_driver main_page_url side_panel_url lo hi in
  r = _get_error_result
  \/ exists driver main_soup side_soup,
       self_driver = Some driver
       /\ load_main_page driver main_page_url = Some main_soup
       /\ load_side_panel driver side_panel_url = Some side_soup
       /\ aggregate (_parse_main_page_buybox main_soup)
            (_parse_side_panel_offers side_soup) lo hi = Some r.
Proof.
  unfold get_product_data, try_product_data.
  destruct self_driver as [driver|]; [|now left].
  destruct (load_main_page driver main_page_url) as [main_soup|] eqn:Hmain; [|now left].
  cbn [mbind option_bind].
  destruct (load_side_panel driver side_panel_url) as [side_soup|] eqn:Hside; [|now left].
  cbn [mbind option_bind].
  destruct (aggregate _ _ lo hi) as [r|] eqn:Hr; [|now left].
  right. exists driver, main_soup, side_soup. repeat split; assumption || reflexivity.
Qed.

(** * The claims *)

(** ** A resolution whose two pages load *)

Section Resolution.

Context (driver : webdriver) (main_page_url side_panel_url : string).
Context (lower_multiplier upper_multiplier : spec_float).
Context (main_soup : main_page_soup) (side_soup : list aod_offer).

Hypothesis main_loaded : load_main_page driver main_page_url = Some main_soup.
Hypothesis side_loaded : load_side_panel driver side_panel_url = Some side_soup.

Local Abbreviation buybox_data := (_parse_main_page_buybox main_soup).
Local Abbreviation side_offers := (_parse_side_panel_offers side_soup).
Local Abbreviation unique := (unique_offers buybox_data side_offers).
Local Abbreviation result :=
  (get_product_data (Some driver) main_page_url side_panel_url
     lower_multiplier upper_multiplier).

Lemma result_loaded :
  result = match aggregate buybox_data side_offers lower_multiplier upper_multiplier with
           | Some r => r
           | None => _get_error_result
           end.
Proof using main_loaded side_loaded.
  unfold get_product_data, try_product_data.
  rewrite main_loaded. cbn [mbind option_bind]. rewrite side_loaded. reflexivity.
Qed.






(** C5, amended.  In a successful result whose optimal price is not
    "N/A", the optimal price is the total price (price plus shipping
    fee) of an offer of the unique offer set. *)
Theorem optimal_price_is_an_offer_total :
  status result = "success"%string ->
  optimal_price result <> VStr NA ->
  exists o, In o unique /\ optimal_price result = VInt (total_price o).
Proof using main_loaded side_loaded.
  rewrite result_loaded.
  destruct (aggregate _ _ _ _) as [r|] eqn:Hr; [|discriminate].
  destruct (aggregate_inv _ _ _ _ _ Hr) as (sel & Hsel & _ & Hopt & _).
  intros _ Hres. rewrite Hopt in *. clear Hr Hopt.
  destruct (buybox_trusted buybox_data) eqn:Ht.
  - unfold buybox_trusted in Ht.
    destruct (bb_price buybox_data) as [p| |] eqn:Hp;
      try (rewrite andb_false_r in Ht; discriminate).
    rewrite (step4_trusted _ _ _ _ p) in Hsel by (unfold buybox_trusted; now rewrite Hp).
    injection Hsel as <-. cbn [sel_optimal_price].
    exists {| price := p;
              shipping_fee := bb_shipping_fee buybox_data;
              seller := bb_seller buybox_data;
              shipper := bb_shipper buybox_data;
              condition := bb_condition buybox_data |}.
    split; [|reflexivity].
    unfold unique_offers, all_offers, buybox_offer. rewrite Hp. apply dedup_head.
  - rewrite step4_untrusted in Hsel by exact Ht.
    destruct (band_rule_optimal _ _ _ _ Hsel) as [Hna|Hex]; [contradiction | exact Hex].
Qed.


End Resolution.

(** ** Any resolution *)

(** C6.  No offer of a result, and no offer of the unique set it was
    computed from, has a condition carrying the marker of a used item: a
    panel entry whose condition text contains the marker is skipped at
    extraction, and the condition of the buy-box is "新品" (new) or the
    sentinel "N/A". *)
Theorem used_offers_never_enter self_driver main_page_url side_panel_url lo hi :
  Forall not_used (offers (get_product_data self_driver main_page_url side_panel_url lo hi))
  /\ (forall main_soup side_soup,
        Forall not_used
          (unique_offers (_parse_main_page_buybox main_soup)
             (_parse_side_panel_offers side_soup)))
  /\ (forall offer_el span_text rest,
        ao_condition_span offer_el = Some span_text ->
        Text.py_in USED_MARK (Text.normalize_spaces span_text) = true ->
        _parse_side_panel_offers (offer_el :: rest) = _parse_side_panel_offers rest)
  /\ (forall main_soup,
        bb_condition (_parse_main_page_buybox main_soup) = NEW_MARK
        \/ bb_condition (_parse_main_page_buybox main_soup) = NA).
Proof.
  assert (Hunique : forall main_soup side_soup,
             Forall not_used
               (unique_offers (_parse_main_page_buybox main_soup)
                  (_parse_side_panel_offers side_soup))).
  { intros main_soup side_soup.
    eapply List.Forall_impl; [|apply unique_offers_kept]. simpl; tauto. }
  split; [|split; [exact Hunique|split]].
  - destruct (get_product_data_total self_driver main_page_url side_panel_url lo hi)
      as [->|(driver & main_soup & side_soup & _ & _ & _ & Hagg)]; [constructor|].
    destruct (aggregate_inv _ _ _ _ _ Hagg) as (sel & Hsel & _ & _ & -> & _).
    apply List.Forall_forall. intros o Hin.
    apply sorted_In, filter_In in Hin as [Hin _].
    apply (step4_price_group _ _ _ _ _ Hsel) in Hin.
    specialize (Hunique main_soup side_soup). rewrite List.Forall_forall in Hunique.
    now apply Hunique.
  - intros offer_el span_text rest Hspan Hused. simpl.
    now rewrite (parse_offer_el_skips_used _ _ Hspan Hused).
  - intros main_soup.
    destruct (_parse_main_page_buybox_condition main_soup) as [[_ H]|[_ H]]; auto.
Qed.

(** C7.  The merged sequence is the buy-box offer, present only when its
    price is an integer, followed by the panel offers.  Deduplication
    keeps the first occurrence of every key (price, seller, shipper) in
    first-seen order, and applying it twice is applying it once. *)
Theorem dedup_keeps_first_occurrences (buybox_data : buybox) (side_offers L : list offer) :
  all_offers buybox_data side_offers
  = match bb_price buybox_data with
    | VInt p => [{| price := p;
                    shipping_fee := bb_shipping_fee buybox_data;
                    seller := bb_seller buybox_data;
                    shipper := bb_shipper buybox_data;
                    condition := bb_condition buybox_data |}]
    | _ => []
    end ++ side_offers
  /\ unique_offers buybox_data side_offers = dedup (all_offers buybox_data side_offers)
  /\ dedup L = first_occurrences [] L
  /\ sublist (dedup L) L
  /\ NoDup (List.map identifier (dedup L))
  /\ Forall (fun o => In (identifier o) (List.map identifier (dedup L))) L
  /\ dedup (dedup L) = dedup L.
Proof.
  split; [|split; [reflexivity|split; [|split; [|split; [|split]]]]].
  - unfold all_offers, buybox_offer. destruct (bb_price buybox_data); reflexivity.
  - apply dedup_loop_first_occurrences. intros k; simpl. split; [|tauto].
    intros Hin. now apply elem_of_empty in Hin.
  - apply dedup_loop_sublist.
  - apply dedup_loop_nodup.
  - apply List.Forall_forall. intros o Hin.
    destruct (dedup_loop_covers ∅ L o Hin) as [Hempty|Hkept]; [|exact Hkept].
    now apply elem_of_empty in Hempty.
  - apply dedup_loop_fixed. intros o _ Hin. now apply elem_of_empty in Hin.
Qed.

(** ** The output row *)

Lemma offer_cells_width l : length (List.flat_map Gui.offer_cells l) = (5 * length l)%nat.
Proof. induction l as [|o rest IH]; simpl; [reflexivity | rewrite IH; lia]. Qed.

(** Once written over the cleared range, the row of any result spans the
    15 fixed and the 10 x 5 offer columns. *)
Lemma written_row_width self_driver main_page_url side_panel_url lo hi :
  length (Gui.written_row (get_product_data self_driver main_page_url side_panel_url lo hi))
  = (15 + 10 * 5)%nat.
Proof.
  destruct (get_product_data_total self_driver main_page_url side_panel_url lo hi)
    as [->|(driver & main_soup & side_soup & _ & _ & _ & Hagg)]; [reflexivity|].
  destruct (aggregate_inv _ _ _ _ _ Hagg) as (sel & _ & Hstatus & _).
  unfold Gui.written_row, Gui.values_to_write. rewrite Hstatus.
  change (String.eqb "success" "success") with true. cbv iota.
  rewrite length_app, List.length_skipn.
  change (length Gui.cells_to_clear) with 65%nat.
  rewrite length_app, offer_cells_width. cbn [length].
  pose proof (List.firstn_le_length Gui.MAX_OFFERS_TO_DISPLAY
                (offers (get_product_data self_driver main_page_url side_panel_url lo hi))).
  change Gui.MAX_OFFERS_TO_DISPLAY with 10%nat in *. lia.
Qed.

(** C1, amended.  When a resolution fails (no driver, a page that does
    not load, or a fault in the pipeline), the result has status "error"
    and its values are the error sentinel in each of the 15 fixed columns
    and nothing else; written over the cleared range, the row has the 65
    columns of a success row (15 fixed plus 10 x 5 offer columns), the
    offer columns being empty. *)
Theorem failed_resolution_row self_driver main_page_url side_panel_url lo hi :
  (self_driver = None
   \/ exists driver,
        self_driver = Some driver
        /\ (load_main_page driver main_page_url = None
            \/ load_side_panel driver side_panel_url = None
            \/ try_product_data driver main_page_url side_panel_url lo hi = None)) ->
  let r := get_product_data self_driver main_page_url side_panel_url lo hi in
  r = _get_error_result
  /\ status r = "error"%string
  /\ Gui.values_to_write r = List.repeat (VStr ERR) 15
  /\ Gui.written_row r
     = List.repeat (VStr ERR) 15 ++ List.repeat (VStr EmptyString) (10 * 5)
  /\ length (Gui.written_row r) = (15 + 10 * 5)%nat
  /\ (forall self_driver' main_page_url' side_panel_url' lo' hi',
        length (Gui.written_row
                  (get_product_data self_driver' main_page_url' side_panel_url' lo' hi'))
        = length (Gui.written_row r)).
Proof.
  intros Hfault r.
  assert (Hr : r = _get_error_result).
  { unfold r, get_product_data.
    destruct Hfault as [->|(driver & -> & Hfault)]; [reflexivity|].
    assert (Htry : try_product_data driver main_page_url side_panel_url lo hi = None).
    { destruct Hfault as [Hmain|[Hside|Htry]]; [| |exact Htry]; unfold try_product_data.
      - now rewrite Hmain.
      - rewrite Hside. now destruct (load_main_page driver main_page_url). }
    now rewrite Htry. }
  rewrite Hr. repeat split.
  intros. apply written_row_width.
Qed.

(** C9.  For a successful result, the stock verdict written in the fifth
    column is "十分" (sufficient) exactly when the real stock exceeds 2
    and the buy-box shipper is the platform, or the inventory score is at
    least 4; otherwise it is "不十分". *)
Theorem stock_status_rule self_driver main_page_url side_panel_url lo hi :
  let r := get_product_data self_driver main_page_url side_panel_url lo hi in
  status r = "success"%string ->
  exists stock score,
    real_stock r = VInt stock
    /\ inventory_score r = VInt score
    /\ Gui.values_to_write r !! 4%nat = Some (VStr (Gui.stock_status r))
    /\ (Gui.stock_status r = Gui.SUFFICIENT <->
        (2 < stock /\ Text.py_in FBA_MARK (bi_shipper (buybox_info r)) = true)
        \/ 4 <= score)
    /\ (Gui.stock_status r = Gui.SUFFICIENT \/ Gui.stock_status r = Gui.INSUFFICIENT)
    /\ (exists main_soup side_soup,
          let buybox_data := _parse_main_page_buybox main_soup in
          let unique := unique_offers buybox_data (_parse_side_panel_offers side_soup) in
          stock = bb_real_stock buybox_data
          /\ bi_shipper (buybox_info r) = bb_shipper buybox_data
          /\ score = 2 * count_fba unique + (Z.of_nat (length unique) - count_fba unique)).
Proof.
  intros r Hstatus.
  destruct (get_product_data_total self_driver main_page_url side_panel_url lo hi)
    as [Herr|(driver & main_soup & side_soup & _ & _ & _ & Hagg)].
  { fold r in Herr. rewrite Herr in Hstatus. discriminate. }
  fold r in Hagg.
  destruct (aggregate_inv _ _ _ _ _ Hagg) as (sel & _ & _ & _ & _ & Hstock & Hscore & Hinfo).
  cbv zeta in Hscore.
  do 2 eexists. split; [exact Hstock|]. split; [exact Hscore|].
  split; [|split; [|split]].
  - unfold Gui.values_to_write. rewrite Hstatus. reflexivity.
  - unfold Gui.stock_status, Gui.stock_sufficient. rewrite Hstock, Hscore.
    destruct (Z.ltb_spec 2 (bb_real_stock (_parse_main_page_buybox main_soup)));
      destruct (Text.py_in FBA_MARK (bi_shipper (buybox_info r)));
      match goal with |- context [4 <=? ?s] => destruct (Z.leb_spec 4 s) end;
      cbn [andb orb]; split; intros Hs; try reflexivity; try discriminate;
      try tauto; try lia;
      destruct Hs as [[? ?]|?]; try discriminate; lia.
  - unfold Gui.stock_status. destruct (Gui.stock_sufficient r); auto.
  - exists main_soup, side_soup. cbv zeta. rewrite Hinfo.
    repeat split. lia.
Qed.

(** * The claims on sample pages *)

Module Checks.

Import Samples PyFloat.

Ltac evaluate := vm_compute; first [reflexivity | discriminate | intro; discriminate].


(** C1 as stated fails on a main page that times out: the values written
    are 15 sentinels, not 65, and the row left in the sheet has empty
    cells from the sixteenth column on. *)
Lemma error_row_is_not_65_sentinels :
  let r := get_product_data (Some timeout_driver) url url f0_85 f1_15 in
  status r = "error"%string
  /\ forall row,
       row = Gui.values_to_write r \/ row = Gui.written_row r ->
       ~ (length row = (15 + 10 * 5)%nat /\ Forall (eq (VStr ERR)) row).
Proof.
  split; [reflexivity|]. intros row [->| ->] [Hlen Hall].
  - vm_compute in Hlen. discriminate.
  - assert (Hcell : Gui.written_row
                      (get_product_data (Some timeout_driver) url url f0_85 f1_15)
                    !! 15%nat = Some (VStr EmptyString)) by reflexivity.
    pose proof (Forall_lookup_1 _ _ _ _ Hall Hcell) as Heq. discriminate.
Qed.

Lemma failed_resolution_row_witness :
  (Some timeout_driver = None
   \/ exists driver,
        Some timeout_driver = Some driver
        /\ (load_main_page driver url = None
            \/ load_side_panel driver url = None
            \/ try_product_data driver url url f0_85 f1_15 = None))
  /\ Gui.values_to_write (get_product_data (Some timeout_driver) url url f0_85 f1_15)
     = List.repeat (VStr ERR) 15.
Proof.
  assert (Hfault : Some timeout_driver = None
                   \/ exists driver,
                        Some timeout_driver = Some driver
                        /\ (load_main_page driver url = None
                            \/ load_side_panel driver url = None
                            \/ try_product_data driver url url f0_85 f1_15 = None)).
  { right. exists timeout_driver. split; [reflexivity | left; reflexivity]. }
  split; [exact Hfault|].
  exact (proj1 (proj2 (proj2
           (failed_resolution_row (Some timeout_driver) url url f0_85 f1_15 Hfault)))).
Defined.





(** C5 as stated fails on offers that charge shipping: the optimal price
    is 115, the total of the offer priced 105 with a fee of 10, and no
    offer of the set has the price 115. *)
Lemma optimal_price_is_no_offer_price :
  let unique := unique_offers (_parse_main_page_buybox page_no_buybox)
                  (_parse_side_panel_offers panel_with_fees) in
  let r := get_product_data (Some (static_driver page_no_buybox panel_with_fees))
             url url f0_85 f1_15 in
  status r = "success"%string
  /\ optimal_price r = VInt 115
  /\ List.map price unique = [100; 105; 120]
  /\ List.map shipping_fee unique = [10; 10; 0]
  /\ ~ (exists o, In o unique /\ optimal_price r = VInt (price o)).
Proof.
  cbv zeta. repeat split; try (vm_compute; reflexivity).
  intros (o & Hin & Heq).
  assert (Hall : Forall (fun o => VInt 115 <> VInt (price o))
                   (unique_offers (_parse_main_page_buybox page_no_buybox)
                      (_parse_side_panel_offers panel_with_fees))).
  { vm_compute. repeat (apply List.Forall_cons; [intro; discriminate|]).
    apply List.Forall_nil. }
  rewrite List.Forall_forall in Hall. apply (Hall o Hin).
  rewrite <- Heq. vm_compute. reflexivity.
Qed.

Lemma optimal_price_is_an_offer_total_witness :
  let unique := unique_offers (_parse_main_page_buybox page_no_buybox)
                  (_parse_side_panel_offers panel_with_fees) in
  let r := get_product_data (Some (static_driver page_no_buybox panel_with_fees))
             url url f0_85 f1_15 in
  (status r = "success"%string /\ optimal_price r <> VStr NA)
  /\ exists o, In o unique /\ optimal_price r = VInt (total_price o).
Proof.
  assert (Hs : status (get_product_data
                         (Some (static_driver page_no_buybox panel_with_fees))
                         url url f0_85 f1_15) = "success"%string)
    by (vm_compute; reflexivity).
  assert (Hp : optimal_price (get_product_data
                                (Some (static_driver page_no_buybox panel_with_fees))
                                url url f0_85 f1_15) <> VStr NA)
    by (vm_compute; intro; discriminate).
  cbv zeta. split; [split; assumption|].
  exact (optimal_price_is_an_offer_total (static_driver page_no_buybox panel_with_fees)
           url url f0_85 f1_15 page_no_buybox panel_with_fees eq_refl eq_refl Hs Hp).
Defined.

Lemma stock_status_rule_witness :
  let r := get_product_data (Some (static_driver page_trusted panel_mixed))
             url url f0_85 f1_15 in
  status r = "success"%string
  /\ Gui.values_to_write r !! 4%nat = Some (VStr Gui.SUFFICIENT)
  /\ real_stock r = VInt 5
  /\ inventory_score r = VInt 5.
Proof.
  assert (Hs : status (get_product_data (Some (static_driver page_trusted panel_mixed))
                         url url f0_85 f1_15) = "success"%string)
    by (vm_compute; reflexivity).
  destruct (stock_status_rule (Some (static_driver page_trusted panel_mixed))
              url url f0_85 f1_15 Hs)
    as (stock & score & Hstock & Hscore & Hcell & _).
  cbv zeta. split; [exact Hs|]. split; [|split].
- rewrite Hcell. vm_compute. reflexivity.
- rewrite Hstock. vm_compute in Hstock. now injection Hstock as <-.
- rewrite Hscore. vm_compute in Hscore. now injection Hscore as <-.
Defined.



End Checks.

(** * Further properties *)

(** ** The extractor *)

(** *** Strings *)

Lemma append_nil s : (EmptyString ++ s)%string = s.
Proof. reflexivity. Qed.

Lemma append_cons c a b : (String c a ++ b)%string = String c (a ++ b).
Proof. reflexivity. Qed.







Lemma keep_chars_all keep s : all_chars keep s = true -> Text.keep_chars keep s = s.
Proof.
  induction s as [|c s IH]; simpl; [reflexivity|].
  intros H. apply andb_prop in H as [-> H]. now rewrite IH.
Qed.


Lemma all_chars_app cls a b :
  all_chars cls (a ++ b) = all_chars cls a && all_chars cls b.
Proof.
  induction a as [|c a IH]; simpl; [reflexivity|]. now rewrite IH, andb_assoc.
Qed.


(** *** Runs of a character class *)






(** *** Decimal numerals *)






Lemma not_digit_or_comma_not_digit c :
  negb (Text.is_digit_or_comma c) = true -> negb (Text.is_digit c) = true.
Proof.
  unfold Text.is_digit_or_comma. destruct (Text.is_digit c); [discriminate | reflexivity].
Qed.

(** *** [_clean_price] *)





(** *** [_clean_shipping_fee] *)


(** *** The stock of the buy-box *)






Lemma span_fst cls s : all_chars cls (fst (Text.span cls s)) = true.
Proof.
  induction s as [|c s IH]; [reflexivity|]. simpl.
  destruct (cls c) eqn:Hc; [|reflexivity].
  destruct (Text.span cls s) as [a b]. simpl in *. now rewrite Hc, IH.
Qed.

Lemma search_remaining_nonneg text n : search_remaining text = Some n -> 0 <= n.
Proof.
  assert (Hhere : forall after,
             (let '(digits, tail) := Text.span Text.is_digit after in
              if negb (is_empty digits) && String.prefix "点" tail
              then Some (Text.int_of_digits 0 digits)
              else None) = Some n -> 0 <= n).
  { intros after. pose proof (span_fst Text.is_digit after) as Hd.
    destruct (Text.span Text.is_digit after) as [digits tail]. simpl in Hd.
    destruct (_ && _); [|discriminate]. intros [= <-].
    rewrite <- (keep_chars_all _ _ Hd). now apply int_of_digits_nonneg. }
  induction text as [|c text IH]; cbn [search_remaining].
  - destruct (Text.strip_prefix "残り" EmptyString) as [after|]; [|discriminate].
    specialize (Hhere after). destruct (Text.span Text.is_digit after) as [digits tail].
    destruct (_ && _); [|discriminate]. exact Hhere.
  - destruct (Text.strip_prefix "残り" (String c text)) as [after|]; [|exact IH].
    specialize (Hhere after). destruct (Text.span Text.is_digit after) as [digits tail].
    destruct (_ && _); [exact Hhere | exact IH].
Qed.



(** *** Fulfilment by the platform *)


(** ** The aggregation *)

(** *** Lists of offers *)

Lemma insert_by_with_total t o l :
  with_total t (insert_by o l) = with_total t (o :: l).
Proof.
  unfold with_total. induction l as [|o' rest IH]; [reflexivity|].
  cbn [insert_by]. destruct (Z.leb_spec (total_price o) (total_price o')) as [Hle|Hgt];
    [reflexivity|].
  cbn [List.filter] in *. rewrite IH.
  destruct (Z.eqb_spec (total_price o) t) as [Ho|Ho];
    destruct (Z.eqb_spec (total_price o') t) as [Ho'|Ho']; try reflexivity. lia.
Qed.

Lemma sorted_with_total t l : with_total t (sorted l) = with_total t l.
Proof.
  induction l as [|o rest IH]; [reflexivity|].
  cbn [sorted fold_right]. fold (sorted rest). rewrite insert_by_with_total.
  unfold with_total in *. cbn [List.filter]. now rewrite IH.
Qed.

Lemma keys_filter (f : offer -> bool) l :
  NoDup (List.map identifier l) -> NoDup (List.map identifier (List.filter f l)).
Proof.
  induction l as [|o rest IH]; [trivial|].
  cbn [List.map List.filter]. rewrite NoDup_cons. intros [Hnot Hrest].
  destruct (f o); [|now apply IH].
  cbn [List.map]. rewrite NoDup_cons. split; [|now apply IH].
  rewrite list_elem_of_In, in_map_iff in *. intros (o' & Hk & Hin).
  apply Hnot. exists o'. split; [exact Hk|]. now apply filter_In in Hin.
Qed.

Lemma keys_perm l l' :
  Permutation l l' -> NoDup (List.map identifier l) -> NoDup (List.map identifier l').
Proof.
  intros Hp. apply (Permutation_map identifier) in Hp.
  intros H. eapply NoDup_Permutation_proper; [symmetry; exact Hp | exact H].
Qed.

(** Removing a key removes at most one offer of a list of distinct keys,
    and exactly one when the key is there. *)
Lemma remove_key_length (k : key) l :
  NoDup (List.map identifier l) ->
  let kept := List.filter (fun o => negb (bool_decide (identifier o = k))) l in
  (length l <= S (length kept))%nat
  /\ (In k (List.map identifier l) -> length l = S (length kept)).
Proof.
  induction l as [|o rest IH]; cbn zeta.
  - intros _. split; [simpl; lia | simpl; tauto].
  - cbn [List.map List.filter]. rewrite NoDup_cons. intros [Hnot Hrest].
    destruct (IH Hrest) as [Hle Heq]. cbv zeta in Hle, Heq.
    destruct (decide (identifier o = k)) as [Hk|Hk].
    + rewrite (bool_decide_eq_true_2 _ Hk). cbn [negb].
      assert (Hall : List.filter (fun o => negb (bool_decide (identifier o = k))) rest = rest).
      { apply List.forallb_filter_id, List.forallb_forall. intros o' Hin.
        apply negb_true_iff, bool_decide_eq_false_2. intros Hk'.
        apply Hnot, list_elem_of_In, in_map_iff. exists o'. split; [congruence | exact Hin]. }
      rewrite Hall. split; [simpl; lia | reflexivity].
    + rewrite (bool_decide_eq_false_2 _ Hk). cbn [negb length].
      split; [lia|]. intros [Hhead|Hin]; [congruence|]. specialize (Heq Hin). lia.
Qed.

Lemma filter_none (f : offer -> bool) l :
  Forall (fun o => f o = false) l -> List.filter f l = [].
Proof.
  intros Hall. rewrite <- (List.filter_false l). apply List.filter_ext_in.
  rewrite List.Forall_forall in Hall. exact Hall.
Qed.

(** In a list in ascending order, the offers cheaper than the one at
    index [k] are among the first [k], and the dearer ones among those
    after it. *)
Lemma sorted_counts l k x :
  StronglySorted le_total l -> l !! k = Some x ->
  (count_cheaper (total_price x) l <= k)%nat
  /\ (count_dearer (total_price x) l + S k <= length l)%nat.
Proof.
  unfold count_cheaper, count_dearer.
  intros Hs. revert k. induction Hs as [|y rest Hs IH Hall]; intros k Hk; [discriminate|].
  destruct k as [|k]; cbn [lookup list_lookup] in Hk.
  - injection Hk as ->. cbn [List.filter length]. rewrite Z.ltb_irrefl.
    rewrite (filter_none (fun o => total_price o <? total_price x) rest).
    + split; [simpl; lia|].
      pose proof (List.filter_length_le (fun o => total_price x <? total_price o) rest). lia.
    + eapply List.Forall_impl; [|exact Hall]. unfold le_total. intros o Ho.
      apply Z.ltb_ge. exact Ho.
  - destruct (IH k Hk) as [Hc Hd]. cbn [List.filter length].
    assert (Hyx : total_price y <= total_price x).
    { rewrite List.Forall_forall in Hall. apply Hall.
      apply list_elem_of_In. eapply list_elem_of_lookup_2, Hk. }
    destruct (Z.ltb_spec (total_price x) (total_price y)); [lia|].
    destruct (total_price y <? total_price x); cbn [length]; lia.
Qed.

(** *** The record a successful aggregation builds *)

Lemma aggregate_record buybox_data side_offers lo hi r :
  aggregate buybox_data side_offers lo hi = Some r ->
  let unique := unique_offers buybox_data side_offers in
  let total := Z.of_nat (length unique) in
  let fba := count_fba unique in
  exists sel,
    step4 buybox_data unique lo hi = Some sel
    /\ r = {| status := "success";
              real_stock := VInt (bb_real_stock buybox_data);
              total_offers := VInt total;
              fba_count := VInt fba;
              fbm_count := VInt (total - fba);
              inventory_score := VInt (fba * 2 + (total - fba));
              effective_sellers_count := VInt (sel_effective_sellers_count sel);
              buybox_info := buybox_info_of buybox_data;
              offers := sorted (display_offers buybox_data (sel_price_group sel));
              optimal_price := sel_optimal_price sel;
              optimal_price_condition := sel_condition sel;
              optimal_price_shipper := sel_shipper sel;
              optimal_price_seller := sel_seller sel |}.
Proof.
  unfold aggregate. destruct (step4 _ _ lo hi) as [sel|]; [|discriminate].
  cbn [mbind option_bind]. intros [= <-]. now exists sel.
Qed.

(** Every way the band rule ends without raising. *)
Lemma band_rule_inv unique lo hi sel :
  band_rule unique lo hi = Some sel ->
  ((length unique < 3)%nat /\ sel = unresolved (sorted unique))
  \/ exists ref lower upper,
       sorted unique !! 2%nat = Some ref
       /\ PyFloat.int_mul (total_price ref) lo = Some lower
       /\ PyFloat.int_mul (total_price ref) hi = Some upper
       /\ let price_group := List.filter (in_band lower upper) (sorted unique) in
          ((length price_group < 3)%nat /\ sel = unresolved price_group)
          \/ ((3 <= length price_group)%nat
              /\ exists median_offer,
                   price_group !! median_index (length price_group) = Some median_offer
                   /\ sel = {| sel_optimal_price := VInt (total_price median_offer);
                               sel_condition := condition median_offer;
                               sel_shipper := shipper median_offer;
                               sel_seller := seller median_offer;
                               sel_effective_sellers_count :=
                                 Z.of_nat (length price_group);
                               sel_price_group := price_group |}).
Proof.
  unfold band_rule. rewrite sorted_length.
  destruct (Nat.leb_spec 3 (length unique)) as [Hlen|Hlen];
    [|intros [= <-]; left; split; [lia | reflexivity]].
  destruct (sorted unique !! 2%nat) as [ref|] eqn:Href; [|discriminate].
  cbn [mbind option_bind].
  destruct (PyFloat.int_mul _ lo) as [lower|] eqn:Hlo; [|discriminate].
  cbn [mbind option_bind].
  destruct (PyFloat.int_mul _ hi) as [upper|] eqn:Hhi; [|discriminate].
  cbn [mbind option_bind]. rewrite eligible_already_sorted.
  intros Hsel. right. exists ref, lower, upper.
  split; [first [exact Href | reflexivity]|].
  split; [first [exact Hlo | reflexivity]|].
  split; [first [exact Hhi | reflexivity]|].
  cbv zeta. destruct (Nat.leb_spec 3 (length (List.filter (in_band lower upper)
                                                (sorted unique)))) as [Hn|Hn].
  - right. split; [exact Hn|].
    destruct (List.filter (in_band lower upper) (sorted unique) !! _)
      as [median_offer|] eqn:Hmed; [|discriminate].
    cbn [mbind option_bind] in Hsel.
    destruct (PyFloat.of_int _); [|discriminate]. cbn [mbind option_bind] in Hsel.
    injection Hsel as <-. now exists median_offer.
  - left. injection Hsel as <-. split; [lia | reflexivity].
Qed.

Lemma step4_cases buybox_data unique lo hi sel :
  step4 buybox_data unique lo hi = Some sel ->
  (buybox_trusted buybox_data = true
   /\ exists p,
        bb_price buybox_data = VInt p
        /\ sel = {| sel_optimal_price := VInt (p + bb_shipping_fee buybox_data);
                    sel_condition := bb_condition buybox_data;
                    sel_shipper := bb_shipper buybox_data;
                    sel_seller := bb_seller buybox_data;
                    sel_effective_sellers_count := Z.of_nat (length unique);
                    sel_price_group := unique |})
  \/ (buybox_trusted buybox_data = false /\ band_rule unique lo hi = Some sel).
Proof.
  destruct (buybox_trusted buybox_data) eqn:Ht.
  - pose proof Ht as Hp. unfold buybox_trusted in Hp.
    destruct (bb_price buybox_data) as [p| |] eqn:Hprice;
      try (rewrite andb_false_r in Hp; discriminate).
    rewrite (step4_trusted _ _ _ _ p Ht Hprice). intros [= <-]. left. eauto.
  - rewrite (step4_untrusted _ _ _ _ Ht). auto.
Qed.

(** What step 4 groups: offers it was given, no more of them, with
    distinct keys when the given ones have distinct keys. *)
Lemma selection_group buybox_data unique lo hi sel :
  step4 buybox_data unique lo hi = Some sel ->
  sel_effective_sellers_count sel = Z.of_nat (length (sel_price_group sel))
  /\ (length (sel_price_group sel) <= length unique)%nat
  /\ (NoDup (List.map identifier unique) ->
      NoDup (List.map identifier (sel_price_group sel))).
Proof.
  intros Hsel. destruct (step4_cases _ _ _ _ _ Hsel) as [[Ht (p & Hp & ->)]|[Ht Hband]].
  - cbn [sel_effective_sellers_count sel_price_group]. auto.
  - assert (Hsorted : NoDup (List.map identifier unique) ->
                      NoDup (List.map identifier (sorted unique))).
    { apply keys_perm. symmetry. apply sorted_perm. }
    destruct (band_rule_inv _ _ _ _ Hband)
      as [[Hlen ->]|(ref & lower & upper & _ & _ & _ & [[Hn ->]|[Hn (m & _ & ->)]])];
      cbn [unresolved sel_effective_sellers_count sel_price_group];
      (split; [reflexivity|]); (split; [|intros Hnd]).
    + rewrite sorted_length. lia.
    + auto.
    + rewrite <- (sorted_length unique). apply List.filter_length_le.
    + apply keys_filter. auto.
    + rewrite <- (sorted_length unique). apply List.filter_length_le.
    + apply keys_filter. auto.
Qed.

(** The optimal price of step 4 is the sentinel or the total of one of the
    unique offers. *)
Lemma step4_optimal buybox_data side_offers lo hi sel :
  step4 buybox_data (unique_offers buybox_data side_offers) lo hi = Some sel ->
  sel_optimal_price sel = VStr NA
  \/ exists o, In o (unique_offers buybox_data side_offers)
               /\ sel_optimal_price sel = VInt (total_price o).
Proof.
  intros Hsel. destruct (step4_cases _ _ _ _ _ Hsel) as [[Ht (p & Hp & ->)]|[Ht Hband]].
  - right. cbn [sel_optimal_price].
    exists {| price := p; shipping_fee := bb_shipping_fee buybox_data;
              seller := bb_seller buybox_data; shipper := bb_shipper buybox_data;
              condition := bb_condition buybox_data |}.
    split; [|reflexivity].
    unfold unique_offers, all_offers, buybox_offer. rewrite Hp. apply dedup_head.
  - eapply band_rule_optimal, Hband.
Qed.

(** Under the band rule the optimal price stays unresolved exactly when
    fewer than three offers are grouped. *)
Lemma band_rule_resolved unique lo hi sel :
  band_rule unique lo hi = Some sel ->
  (sel_optimal_price sel = VStr NA /\ (length (sel_price_group sel) < 3)%nat)
  \/ ((exists p, sel_optimal_price sel = VInt p) /\ (3 <= length (sel_price_group sel))%nat).
Proof.
  intros Hband.
  destruct (band_rule_inv _ _ _ _ Hband)
    as [[Hlen ->]|(ref & lower & upper & _ & _ & _ & [[Hn ->]|[Hn (m & _ & ->)]])];
    cbn [unresolved sel_optimal_price sel_price_group].
  - left. rewrite sorted_length. auto.
  - left. auto.
  - right. eauto.
Qed.

Lemma unique_offers_nodup buybox_data side_offers :
  NoDup (List.map identifier (unique_offers buybox_data side_offers)).
Proof. apply dedup_loop_nodup. Qed.

Lemma display_offers_sorted buybox_data price_group :
  StronglySorted le_total (sorted (display_offers buybox_data price_group)).
Proof. apply sorted_sorted. Qed.

(** *** A successful result, field by field *)

Lemma success_inv self_driver main_page_url side_panel_url lo hi :
  let r := get_product_data self_driver main_page_url side_panel_url lo hi in
  status r = "success"%string ->
  exists driver main_soup side_soup sel,
    self_driver = Some driver
    /\ load_main_page driver main_page_url = Some main_soup
    /\ load_side_panel driver side_panel_url = Some side_soup
    /\ step4 (_parse_main_page_buybox main_soup)
         (unique_offers (_parse_main_page_buybox main_soup)
            (_parse_side_panel_offers side_soup)) lo hi = Some sel
    /\ aggregate (_parse_main_page_buybox main_soup)
         (_parse_side_panel_offers side_soup) lo hi = Some r.
Proof.
  intros r Hstatus.
  destruct (get_product_data_total self_driver main_page_url side_panel_url lo hi)
    as [Herr|(driver & main_soup & side_soup & Hd & Hm & Hs & Hagg)].
  - fold r in Herr. rewrite Herr in Hstatus. discriminate.
  - fold r in Hagg. destruct (aggregate_record _ _ _ _ _ Hagg) as (sel & Hsel & _).
    exists driver, main_soup, side_soup, sel. auto.
Qed.

(** ** Any resolution that succeeds *)

Lemma count_fba_bounds l : 0 <= count_fba l <= Z.of_nat (length l).
Proof.
  unfold count_fba. pose proof (List.filter_length_le is_fba l). lia.
Qed.

Lemma bb_real_stock_nonneg soup : 0 <= bb_real_stock (_parse_main_page_buybox soup).
Proof.
  unfold _parse_main_page_buybox; cbn [bb_real_stock].
  destruct (mp_availability_div soup) as [text|]; [|lia].
  destruct (Text.py_in IN_STOCK text); [lia|].
  destruct (search_remaining text) as [n|] eqn:Hn; [|lia].
  eapply search_remaining_nonneg, Hn.
Qed.

(** X7.  In every successful result the platform-fulfilled and the
    merchant-fulfilled offers add up to the total number of unique offers,
    the inventory score counts the former twice, and so lies between the
    total and twice the total. *)
Theorem offer_counts_add_up self_driver main_page_url side_panel_url lo hi :
  let r := get_product_data self_driver main_page_url side_panel_url lo hi in
  status r = "success"%string ->
  exists total fba fbm score,
    total_offers r = VInt total /\ fba_count r = VInt fba
    /\ fbm_count r = VInt fbm /\ inventory_score r = VInt score
    /\ fba + fbm = total /\ score = 2 * fba + fbm
    /\ 0 <= fba /\ 0 <= fbm /\ total <= score <= 2 * total.
Proof.
  intros r Hstatus.
  destruct (success_inv _ _ _ _ _ Hstatus)
    as (driver & main_soup & side_soup & sel & _ & _ & _ & _ & Hagg).
  fold r in Hagg. destruct (aggregate_record _ _ _ _ _ Hagg) as (sel' & _ & Hr).
  cbv zeta in Hr. rewrite Hr. cbn [total_offers fba_count fbm_count inventory_score].
  set (unique := unique_offers _ _). pose proof (count_fba_bounds unique).
  do 4 eexists. repeat (split; [reflexivity|]). lia.
Qed.

(** X8.  In every successful result the number of effective sellers lies
    between 0 and the total number of unique offers, the offers shown are
    the effective ones or all but one of them, and the optimal price is
    the sentinel only when fewer than three sellers are effective. *)
Theorem effective_sellers_bounds self_driver main_page_url side_panel_url lo hi :
  let r := get_product_data self_driver main_page_url side_panel_url lo hi in
  status r = "success"%string ->
  exists eff total,
    effective_sellers_count r = VInt eff /\ total_offers r = VInt total
    /\ 0 <= eff <= total
    /\ eff - 1 <= Z.of_nat (length (offers r)) <= eff
    /\ (optimal_price r = VStr NA \/ exists p, optimal_price r = VInt p)
    /\ (optimal_price r = VStr NA -> eff < 3).
Proof.
  intros r Hstatus.
  destruct (success_inv _ _ _ _ _ Hstatus)
    as (driver & main_soup & side_soup & sel & _ & _ & _ & Hsel & Hagg).
  fold r in Hagg. destruct (aggregate_record _ _ _ _ _ Hagg) as (sel' & Hsel' & Hr).
  cbv zeta in Hr. rewrite Hsel in Hsel'. injection Hsel' as <-.
  rewrite Hr. cbn [effective_sellers_count total_offers offers optimal_price].
  set (buybox_data := _parse_main_page_buybox main_soup) in *.
  set (unique := unique_offers buybox_data _) in *.
  destruct (selection_group _ _ _ _ _ Hsel) as (Heff & Hle & Hnd).
  specialize (Hnd (unique_offers_nodup _ _)).
  destruct (remove_key_length (buybox_identifier buybox_data) _ Hnd) as [Hkept _].
  cbv zeta in Hkept. fold (display_offers buybox_data (sel_price_group sel)) in Hkept.
  pose proof (List.filter_length_le
                (fun o => negb (bool_decide (identifier o = buybox_identifier buybox_data)))
                (sel_price_group sel)) as Hup.
  fold (display_offers buybox_data (sel_price_group sel)) in Hup.
  do 2 eexists. split; [reflexivity|]. split; [reflexivity|].
  rewrite sorted_length, Heff. split; [lia|]. split; [lia|].
  destruct (step4_cases _ _ _ _ _ Hsel) as [[Ht (p & Hp & ->)]|[Ht Hband]].
  - cbn [sel_optimal_price]. split; [eauto | discriminate].
  - destruct (band_rule_resolved _ _ _ _ Hband) as [[Hna Hn]|[[p Hp] Hn]].
    + split; [now left | intros _; lia].
    + split; [eauto | rewrite Hp; discriminate].
Qed.

(** X9.  The offers shown in a successful result are in ascending order
    of total price, no two of them share the key (price, seller, shipper),
    and none of them has the key of the buy-box. *)
Theorem displayed_offers_ordered_distinct self_driver main_page_url side_panel_url lo hi :
  let r := get_product_data self_driver main_page_url side_panel_url lo hi in
  status r = "success"%string ->
  StronglySorted le_total (offers r)
  /\ NoDup (List.map identifier (offers r))
  /\ Forall (fun o => identifier o
                      <> (bi_price (buybox_info r), bi_seller (buybox_info r),
                          bi_shipper (buybox_info r)))
       (offers r).
Proof.
  intros r Hstatus.
  destruct (success_inv _ _ _ _ _ Hstatus)
    as (driver & main_soup & side_soup & sel & _ & _ & _ & Hsel & Hagg).
  fold r in Hagg. destruct (aggregate_record _ _ _ _ _ Hagg) as (sel' & Hsel' & Hr).
  cbv zeta in Hr. rewrite Hsel in Hsel'. injection Hsel' as <-.
  rewrite Hr. cbn [offers buybox_info buybox_info_of bi_price bi_seller bi_shipper].
  destruct (selection_group _ _ _ _ _ Hsel) as (_ & _ & Hnd).
  specialize (Hnd (unique_offers_nodup _ _)).
  split; [apply sorted_sorted|]. split.
  - eapply keys_perm; [symmetry; apply sorted_perm|]. now apply keys_filter.
  - apply List.Forall_forall. intros o Hin.
    apply (proj1 (sorted_In _ _)), filter_In in Hin as [_ Hkey].
    apply negb_true_iff, bool_decide_eq_false in Hkey. exact Hkey.
Qed.

(** X10.  No price, shipping fee or stock count of a successful result is
    negative: the offers shown, a resolved optimal price, the stock of the
    buy-box and its price when it was parsed; the shipping fee of the
    buy-box is always 0. *)
Theorem result_is_non_negative self_driver main_page_url side_panel_url lo hi :
  let r := get_product_data self_driver main_page_url side_panel_url lo hi in
  status r = "success"%string ->
  Forall (fun o => 0 <= price o /\ 0 <= shipping_fee o) (offers r)
  /\ (forall p, optimal_price r = VInt p -> 0 <= p)
  /\ (exists n, real_stock r = VInt n /\ 0 <= n)
  /\ (forall p, bi_price (buybox_info r) = VInt p -> 0 <= p)
  /\ bi_shipping_fee (buybox_info r) = Some 0.
Proof.
  intros r Hstatus.
  destruct (success_inv _ _ _ _ _ Hstatus)
    as (driver & main_soup & side_soup & sel & _ & _ & _ & Hsel & Hagg).
  fold r in Hagg. destruct (aggregate_record _ _ _ _ _ Hagg) as (sel' & Hsel' & Hr).
  cbv zeta in Hr. rewrite Hsel in Hsel'. injection Hsel' as <-.
  rewrite Hr.
  cbn [offers optimal_price real_stock buybox_info buybox_info_of bi_price bi_shipping_fee].
  pose proof (unique_offers_kept main_soup side_soup) as Hkept.
  rewrite List.Forall_forall in Hkept.
  split; [|split; [|split; [|split]]].
  - apply List.Forall_forall. intros o Hin.
    apply (proj1 (sorted_In _ _)), filter_In in Hin as [Hin _].
    apply (step4_price_group _ _ _ _ _ Hsel), Hkept in Hin. tauto.
  - intros p Hp. destruct (step4_optimal _ _ _ _ _ Hsel) as [Hna|(o & Hin & Ho)];
      [congruence|].
    rewrite Ho in Hp. injection Hp as <-. apply Hkept in Hin. unfold total_price. lia.
  - eexists. split; [reflexivity|]. apply bb_real_stock_nonneg.
  - apply _parse_main_page_buybox_price.
  - reflexivity.
Qed.

(** X11.  When the buy-box of a successful result is trusted (more than
    two in stock, a parsed price, a shipper of the platform), the optimal
    price is the buy-box price itself, every unique offer counts as
    effective, and the offers shown are all of them but the buy-box. *)
Theorem trusted_buybox_shows_all_others self_driver main_page_url side_panel_url lo hi n p :
  let r := get_product_data self_driver main_page_url side_panel_url lo hi in
  status r = "success"%string ->
  real_stock r = VInt n -> 2 < n ->
  bi_price (buybox_info r) = VInt p ->
  Text.py_in FBA_MARK (bi_shipper (buybox_info r)) = true ->
  optimal_price r = VInt p
  /\ exists total,
       total_offers r = VInt total /\ 1 <= total
       /\ effective_sellers_count r = VInt total
       /\ Z.of_nat (length (offers r)) = total - 1.
Proof.
  intros r Hstatus.
  destruct (success_inv _ _ _ _ _ Hstatus)
    as (driver & main_soup & side_soup & sel & _ & _ & _ & Hsel & Hagg).
  fold r in Hagg. destruct (aggregate_record _ _ _ _ _ Hagg) as (sel' & Hsel' & Hr).
  cbv zeta in Hr. rewrite Hsel in Hsel'. injection Hsel' as <-.
  rewrite Hr.
  cbn [offers optimal_price real_stock buybox_info buybox_info_of bi_price bi_shipper
       total_offers effective_sellers_count].
  set (buybox_data := _parse_main_page_buybox main_soup) in *.
  intros Hn' Hstock Hp Hfba.
  assert (Hn : bb_real_stock buybox_data = n) by congruence.
  assert (Ht : buybox_trusted buybox_data = true).
  { unfold buybox_trusted. rewrite Hn, Hp, Hfba.
    destruct (Z.ltb_spec 2 n); [reflexivity | lia]. }
  rewrite (step4_trusted _ _ _ _ p Ht Hp) in Hsel. injection Hsel as <-.
  cbn [sel_optimal_price sel_effective_sellers_count sel_price_group].
  split; [subst buybox_data; cbn [_parse_main_page_buybox bb_shipping_fee]; f_equal; lia|].
  set (unique := unique_offers buybox_data _).
  assert (Hin : In (buybox_identifier buybox_data) (List.map identifier unique)).
  { apply in_map_iff.
    exists {| price := p; shipping_fee := bb_shipping_fee buybox_data;
              seller := bb_seller buybox_data; shipper := bb_shipper buybox_data;
              condition := bb_condition buybox_data |}.
    split; [unfold identifier, buybox_identifier; cbn [price seller shipper]; now rewrite Hp|].
    unfold unique, unique_offers, all_offers, buybox_offer. rewrite Hp. apply dedup_head. }
  destruct (remove_key_length (buybox_identifier buybox_data) unique
              (unique_offers_nodup _ _)) as [_ Hlen].
  specialize (Hlen Hin). cbv zeta in Hlen.
  fold (display_offers buybox_data unique) in Hlen.
  exists (Z.of_nat (length unique)). rewrite sorted_length.
  repeat split; lia.
Qed.

Lemma median_index_central n :
  (3 <= n)%nat -> (2 * median_index n <= n)%nat /\ (n <= 2 * median_index n + 2)%nat.
Proof.
  intros Hn. unfold median_index.
  pose proof (Nat.div_mod_eq n 2) as Hdiv.
  pose proof (Nat.mod_upper_bound n 2 ltac:(lia)) as Hmod.
  destruct (Nat.eqb_spec (n mod 2) 1); lia.
Qed.

(** X12.  An optimal price resolved by the band rule is a median of the
    grouped offers: at least three offers are grouped, one of them has
    that total, at most half of them are cheaper and at most half are
    dearer, and the price lies within the band around the third cheapest
    unique offer. *)
Theorem band_median_is_central unique lo hi sel opt :
  band_rule unique lo hi = Some sel ->
  sel_optimal_price sel = VInt opt ->
  let group := sel_price_group sel in
  (3 <= length group)%nat
  /\ (exists o, In o group /\ total_price o = opt)
  /\ (2 * count_cheaper opt group <= length group)%nat
  /\ (2 * count_dearer opt group <= length group)%nat
  /\ exists ref lower upper,
       sorted unique !! 2%nat = Some ref
       /\ PyFloat.int_mul (total_price ref) lo = Some lower
       /\ PyFloat.int_mul (total_price ref) hi = Some upper
       /\ PyFloat.le_int lower opt = true /\ PyFloat.int_le opt upper = true.
Proof.
  intros Hband Hopt.
  destruct (band_rule_inv _ _ _ _ Hband)
    as [[Hlen ->]|(ref & lower & upper & Href & Hlo & Hhi & [[Hn ->]|[Hn (m & Hm & ->)]])];
    try discriminate.
  cbn [sel_optimal_price sel_price_group] in *. injection Hopt as <-.
  set (group := List.filter (in_band lower upper) (sorted unique)) in *.
  assert (Hin : In m group) by (eapply list_elem_of_In, list_elem_of_lookup_2, Hm).
  assert (Hs : StronglySorted le_total group) by apply filter_sorted, sorted_sorted.
  destruct (sorted_counts _ _ _ Hs Hm) as [Hc Hd].
  destruct (median_index_central _ Hn) as [H1 H2].
  split; [exact Hn|]. split; [now exists m|]. split; [lia|]. split; [lia|].
  exists ref, lower, upper. repeat (split; [assumption|]).
  apply filter_In in Hin as [_ Hband']. now apply andb_prop in Hband'.
Qed.

Lemma with_total_filter t (f : offer -> bool) l :
  with_total t (List.filter f l) = List.filter f (with_total t l).
Proof.
  unfold with_total. induction l as [|o rest IH]; [reflexivity|].
  cbn [List.filter]. destruct (f o) eqn:Hf; destruct (total_price o =? t) eqn:Ht;
    cbn [List.filter]; rewrite ?Hf, ?Ht, IH; reflexivity.
Qed.

Lemma filter_is_sublist (f : offer -> bool) l : sublist (List.filter f l) l.
Proof.
  induction l as [|o rest IH]; [constructor|].
  cbn [List.filter]. destruct (f o); now constructor.
Qed.

(** The offers of one total that step 4 groups and step 5 shows are in
    the order of the unique offers. *)
Lemma shown_ties_in_order buybox_data unique lo hi sel t :
  step4 buybox_data unique lo hi = Some sel ->
  sublist (with_total t (sorted (display_offers buybox_data (sel_price_group sel)))) unique.
Proof.
  intros Hsel. rewrite sorted_with_total. unfold display_offers.
  rewrite with_total_filter.
  etransitivity; [apply filter_is_sublist|].
  destruct (step4_cases _ _ _ _ _ Hsel) as [[Ht (p & Hp & ->)]|[Ht Hband]].
  - apply filter_is_sublist.
  - destruct (band_rule_inv _ _ _ _ Hband)
      as [[Hlen ->]|(ref & lower & upper & _ & _ & _ & [[Hn ->]|[Hn (m & _ & ->)]])];
      cbn [unresolved sel_price_group];
      rewrite ?with_total_filter, sorted_with_total;
      repeat (etransitivity; [apply filter_is_sublist|]); reflexivity.
Qed.

Lemma parse_length offer_elements :
  (length (_parse_side_panel_offers offer_elements) <= length offer_elements)%nat.
Proof.
  induction offer_elements as [|offer_el rest IH]; [reflexivity|].
  cbn [_parse_side_panel_offers]. destruct (parse_offer_el offer_el); cbn [length]; lia.
Qed.

(** X13.  The unique offers start with the buy-box offer whenever its
    price was parsed, and they number at most the entries of the side
    panel plus that one. *)
Theorem unique_offers_start_with_buybox soup side_soup :
  let buybox_data := _parse_main_page_buybox soup in
  let unique := unique_offers buybox_data (_parse_side_panel_offers side_soup) in
  (forall p, bb_price buybox_data = VInt p ->
     unique !! 0%nat
     = Some {| price := p; shipping_fee := 0;
               seller := bb_seller buybox_data; shipper := bb_shipper buybox_data;
               condition := NEW_MARK |})
  /\ (length unique
      <= length side_soup + (if is_int (bb_price buybox_data) then 1 else 0))%nat.
Proof.
  intros buybox_data unique. split.
  - intros p Hp.
    assert (Hcond : bb_condition buybox_data = NEW_MARK).
    { destruct (_parse_main_page_buybox_condition soup) as [[_ H]|[H _]]; [exact H|].
      fold buybox_data in H. rewrite Hp in H. discriminate. }
    unfold unique, unique_offers, all_offers, buybox_offer. rewrite Hp, Hcond.
    unfold dedup. cbn [dedup_loop].
    destruct (decide (_ ∈ ∅)) as [Hin|_]; [now apply elem_of_empty in Hin | reflexivity].
  - pose proof (sublist_length _ _ (dedup_loop_sublist ∅
                  (all_offers buybox_data (_parse_side_panel_offers side_soup)))) as Hlen.
    fold (dedup (all_offers buybox_data (_parse_side_panel_offers side_soup))) in Hlen.
    fold (unique_offers buybox_data (_parse_side_panel_offers side_soup)) in Hlen.
    fold unique in Hlen.
    pose proof (parse_length side_soup) as Hside.
    unfold all_offers, buybox_offer in Hlen.
    destruct (bb_price buybox_data); cbn [is_int length] in *; lia.
Qed.

Lemma flat_map_offer_cells l i o :
  l !! i = Some o ->
  forall j, (j < 5)%nat ->
    List.flat_map Gui.offer_cells l !! (5 * i + j)%nat = Gui.offer_cells o !! j.
Proof.
  revert i. induction l as [|o' rest IH]; intros i Hi j Hj; [discriminate|].
  destruct i as [|i].
  - injection Hi as ->. cbn [List.flat_map]. rewrite Nat.mul_0_r, Nat.add_0_l.
    apply lookup_app_l. cbn [Gui.offer_cells length]. exact Hj.
  - cbn [List.flat_map]. rewrite lookup_app_r by (cbn [Gui.offer_cells length]; lia).
    cbn [Gui.offer_cells length]. replace (5 * S i + j - 5)%nat with (5 * i + j)%nat by lia.
    now apply IH.
Qed.

(** X14.  The row of a successful result has 15 fixed cells followed by
    five cells for each of the first ten offers, offer [i] (counted from 0)
    filling the cells from 15 + 5 i on with its price, shipping fee,
    condition, shipper and seller; offers beyond the tenth are dropped, so
    the row never exceeds the 65 columns of the header. *)
Theorem success_row_layout (data : product_result) :
  status data = "success"%string ->
  let row := Gui.values_to_write data in
  length row = (15 + 5 * Nat.min 10 (length (offers data)))%nat
  /\ (length row <= Gui.num_of_output_cols)%nat
  /\ forall i o, (i < 10)%nat -> offers data !! i = Some o ->
       row !! (15 + 5 * i)%nat = Some (VInt (price o))
       /\ row !! (15 + 5 * i + 1)%nat = Some (VInt (shipping_fee o))
       /\ row !! (15 + 5 * i + 2)%nat = Some (VStr (condition o))
       /\ row !! (15 + 5 * i + 3)%nat = Some (VStr (shipper o))
       /\ row !! (15 + 5 * i + 4)%nat = Some (VStr (seller o)).
Proof.
  intros Hstatus row. subst row. unfold Gui.values_to_write. rewrite Hstatus.
  change (String.eqb "success" "success") with true. cbv iota zeta.
  change Gui.MAX_OFFERS_TO_DISPLAY with 10%nat.
  change Gui.num_of_output_cols with 65%nat.
  rewrite length_app, offer_cells_width, List.length_firstn. cbn [length].
  split; [reflexivity|]. split; [lia|].
  intros i o Hi Ho.
  assert (Hfirst : List.firstn 10 (offers data) !! i = Some o).
  { change (take 10 (offers data) !! i = Some o). rewrite lookup_take_lt by exact Hi.
    exact Ho. }
  pose proof (flat_map_offer_cells _ _ _ Hfirst) as Hcells.
  assert (Hcell : forall j, (j < 5)%nat ->
            forall fixed : list pyval, length fixed = 15%nat ->
              (fixed ++ List.flat_map Gui.offer_cells (List.firstn 10 (offers data)))
                !! (15 + 5 * i + j)%nat = Gui.offer_cells o !! j).
  { intros j Hj fixed Hfixed. rewrite lookup_app_r by lia.
    rewrite Hfixed. replace (15 + 5 * i + j - 15)%nat with (5 * i + j)%nat by lia.
    now apply Hcells. }
  rewrite <- (Nat.add_0_r (15 + 5 * i)) at 1.
  rewrite !Hcell by (reflexivity || lia). repeat split.
Qed.

(** X15.  A successful result with four unique offers, or with two offers
    fulfilled by the platform, is reported with sufficient stock; a result
    reported with insufficient stock has at most three offers, counting
    the platform-fulfilled ones twice. *)
Theorem many_offers_mean_sufficient_stock self_driver main_page_url side_panel_url lo hi :
  let r := get_product_data self_driver main_page_url side_panel_url lo hi in
  status r = "success"%string ->
  exists total fba,
    total_offers r = VInt total /\ fba_count r = VInt fba
    /\ (4 <= total \/ 2 <= fba -> Gui.stock_status r = Gui.SUFFICIENT)
    /\ (Gui.stock_status r = Gui.INSUFFICIENT -> total + fba <= 3).
Proof.
  intros r Hstatus.
  destruct (success_inv _ _ _ _ _ Hstatus)
    as (driver & main_soup & side_soup & sel & _ & _ & _ & _ & Hagg).
  fold r in Hagg. destruct (aggregate_record _ _ _ _ _ Hagg) as (sel' & _ & Hr).
  cbv zeta in Hr. rewrite Hr. cbn [total_offers fba_count].
  set (unique := unique_offers _ _) in *. pose proof (count_fba_bounds unique) as Hfba.
  do 2 eexists. split; [reflexivity|]. split; [reflexivity|].
  unfold Gui.stock_status, Gui.stock_sufficient. cbn [real_stock inventory_score].
  destruct (Z.leb_spec 4 (count_fba unique * 2 + (Z.of_nat (length unique) - count_fba unique)))
    as [Hs|Hs].
  - rewrite orb_true_r. split; [reflexivity | discriminate].
  - rewrite orb_false_r. split; [lia|]. intros _. lia.
Qed.

(** ** A resolution whose two pages load, again *)



Section LoadedPages.

Context (driver : webdriver) (main_page_url side_panel_url : string).
Context (lower_multiplier upper_multiplier : spec_float).
Context (main_soup : main_page_soup) (side_soup : list aod_offer).

Hypothesis main_loaded : load_main_page driver main_page_url = Some main_soup.
Hypothesis side_loaded : load_side_panel driver side_panel_url = Some side_soup.

Local Abbreviation buybox_data := (_parse_main_page_buybox main_soup).
Local Abbreviation side_offers := (_parse_side_panel_offers side_soup).
Local Abbreviation unique := (unique_offers buybox_data side_offers).
Local Abbreviation result :=
  (get_product_data (Some driver) main_page_url side_panel_url
     lower_multiplier upper_multiplier).


(** X17.  Among the offers shown, those of one total price come in the
    order in which they were first seen: the order of the unique offers,
    where the buy-box comes first and the panel entries follow from top
    to bottom. *)
Theorem equal_totals_keep_first_seen_order (t : Z) :
  sublist (with_total t (offers result)) unique.
Proof using main_loaded side_loaded.
  rewrite (result_loaded _ _ _ _ _ _ _ main_loaded side_loaded).
  destruct (aggregate _ _ lower_multiplier upper_multiplier) as [r|] eqn:Hagg.
  - destruct (aggregate_record _ _ _ _ _ Hagg) as (sel & Hsel & ->). cbn [offers].
    now apply (shown_ties_in_order _ _ _ _ _ _ Hsel).
  - apply sublist_nil_l.
Qed.

End LoadedPages.

(** ** The row loop *)

Module RunnerFacts.
Import Runner.

(** ** Cells that count as URLs *)

Lemma py_lstrip_separator w s :
  In w Text.whitespace -> py_lstrip (w ++ s)%string = py_lstrip s.
Proof.
  intros Hin. unfold Text.whitespace in Hin. cbn [List.map Text.bytes fold_right In] in Hin.
  repeat (destruct Hin as [<-|Hin]; [destruct s; reflexivity|]). destruct Hin.
Qed.

Lemma py_lstrip_separators seps s :
  Forall (fun w => In w Text.whitespace) seps ->
  py_lstrip (fold_right String.append s seps) = py_lstrip s.
Proof.
  induction 1 as [|w seps Hw _ IH]; [reflexivity|].
  cbn [fold_right]. now rewrite py_lstrip_separator.
Qed.

Lemma py_lstrip_word c rest :
  Text.ws_width (String c rest) = 0%nat -> py_lstrip (String c rest) = String c rest.
Proof. unfold py_lstrip. cbn [lstrip_loop]. now intros ->. Qed.

Lemma py_rstrip_word c rest :
  Text.ws_width (String c rest) = 0%nat ->
  py_rstrip (String c rest) = String c (py_rstrip rest).
Proof. intros Hc. cbn [py_rstrip]. now rewrite py_lstrip_word. Qed.

Lemma py_strip_http rest :
  py_strip ("http" ++ rest) = ("http" ++ py_rstrip rest)%string.
Proof.
  unfold py_strip. rewrite !append_cons, append_nil.
  rewrite py_lstrip_word by reflexivity.
  rewrite !py_rstrip_word by reflexivity. reflexivity.
Qed.

(** X22.  A cell counts as a URL when, after the separators in front of
    it, it starts with "http": a cell that is empty or holds separators
    only is refused, as is a cell whose first character after the
    separators is another one than "h". *)
Theorem url_ok_rule (seps : list string) :
  Forall (fun w => In w Text.whitespace) seps ->
  url_ok (fold_right String.append EmptyString seps) = false
  /\ (forall rest, url_ok (fold_right String.append ("http" ++ rest)%string seps) = true)
  /\ (forall c rest,
        Text.ws_width (String c rest) = 0%nat -> c <> "h"%char ->
        url_ok (fold_right String.append (String c rest) seps) = false).
Proof.
  intros Hseps. unfold url_ok, py_strip. split; [|split].
  - rewrite py_lstrip_separators by exact Hseps. apply andb_false_r.
  - intros rest. rewrite py_lstrip_separators by exact Hseps.
    fold (py_strip ("http" ++ rest)). rewrite py_strip_http.
    assert (Hne : is_empty (fold_right String.append ("http" ++ rest)%string seps) = false).
    { clear Hseps. induction seps as [|w seps IH]; [reflexivity|].
      cbn [fold_right]. destruct w as [|a w]; [exact IH | reflexivity]. }
    rewrite Hne. destruct (py_rstrip rest); reflexivity.
  - intros c rest Hc Hh. rewrite py_lstrip_separators by exact Hseps.
    rewrite py_lstrip_word, py_rstrip_word by exact Hc.
    cbn [String.prefix]. destruct (ascii_dec "h" c) as [Heq|_]; [congruence|].
    apply andb_false_r.
Qed.

(** ** The loop *)

Section Loop.

Context (driver : webdriver) (cfg : config) (sheet : worksheet).

(** One pass through the body of the loop. *)
Lemma iterate_spec st :
  let row := current_row st in
  match iterate driver cfg sheet st with
  | Continue st' =>
      current_row st' = S row
      /\ updates st' = updates st ++ row_updates driver cfg sheet row
      /\ (consecutive_empty_count st' < 10)%nat
  | Break st' | Raise st' =>
      current_row st' = row
      /\ updates st' = updates st ++ interrupted_updates cfg sheet row
      /\ row_is_valid cfg sheet row && row_is_written sheet row = false
  end.
Proof.
  cbv zeta. unfold iterate, row_updates, interrupted_updates, row_is_valid, row_is_written.
  destruct (row_values sheet (current_row st)) as [values| |];
    try (cbn [andb]; rewrite app_nil_r; auto).
  destruct (row_urls cfg values) as [[main_page_url side_panel_url]|] eqn:Hurls.
  - rewrite bool_decide_eq_true_2 by eauto.
    destruct (clear_raises sheet (current_row st)); cbn [andb negb current_row updates];
      [rewrite app_nil_r; auto|].
    destruct (write_raises sheet (current_row st)); cbn [andb negb current_row updates
                                                        consecutive_empty_count];
      repeat split; lia.
  - rewrite bool_decide_eq_false_2 by (intros [? ?]; discriminate).
    destruct (Nat.leb_spec 10 (S (consecutive_empty_count st)));
      cbn [andb current_row updates consecutive_empty_count]; rewrite app_nil_r;
      repeat split; lia.
Qed.

(** The updates of a run of the loop that ends. *)
Lemma while_true_trace fuel st st' :
  while_true fuel driver cfg sheet st = Some st' ->
  (current_row st <= current_row st')%nat
  /\ updates st'
     = updates st
       ++ List.flat_map (row_updates driver cfg sheet)
            (List.seq (current_row st) (current_row st' - current_row st))
       ++ interrupted_updates cfg sheet (current_row st')
  /\ row_is_valid cfg sheet (current_row st') && row_is_written sheet (current_row st') = false.
Proof.
  revert st. induction fuel as [|fuel IH]; intros st; [discriminate|].
  cbn [while_true]. pose proof (iterate_spec st) as Hstep. cbv zeta in Hstep.
  destruct (iterate driver cfg sheet st) as [st1|st1|st1].
  - intros Hrun. destruct (IH _ Hrun) as (Hle & Hup & Hstop).
    destruct Hstep as (Hrow & Hup1 & _). rewrite Hrow in Hle, Hup.
    split; [lia|]. split; [|exact Hstop].
    replace (current_row st' - current_row st)%nat
      with (S (current_row st' - S (current_row st))) by lia.
    cbn [List.seq List.flat_map]. rewrite Hup, Hup1, <- !app_assoc. reflexivity.
  - intros [= <-]. destruct Hstep as (Hrow & Hup & Hstop). rewrite Hrow.
    rewrite Nat.sub_diag. cbn [List.seq List.flat_map app]. auto.
  - intros [= <-]. destruct Hstep as (Hrow & Hup & Hstop). rewrite Hrow.
    rewrite Nat.sub_diag. cbn [List.seq List.flat_map app]. auto.
Qed.

(** A row that is skipped moves the loop on, or ends it at the tenth in a
    row. *)
Lemma iterate_skipped st :
  row_is_skipped cfg sheet (current_row st) = true ->
  iterate driver cfg sheet st
  = let count := S (consecutive_empty_count st) in
    if (10 <=? count)%nat
    then Break {| current_row := current_row st;
                  consecutive_empty_count := count;
                  updates := updates st |}
    else Continue {| current_row := S (current_row st);
                     consecutive_empty_count := count;
                     updates := updates st |}.
Proof.
  unfold row_is_skipped, iterate.
  destruct (row_values sheet (current_row st)) as [values| |]; try discriminate.
  destruct (row_urls cfg values) as [[? ?]|]; [|reflexivity].
  rewrite bool_decide_eq_true_2 by eauto. discriminate.
Qed.

Lemma skip_rows k fuel st :
  (consecutive_empty_count st + k < 10)%nat ->
  (forall i, (i < k)%nat -> row_is_skipped cfg sheet (current_row st + i) = true) ->
  while_true (k + fuel) driver cfg sheet st
  = while_true fuel driver cfg sheet
      {| current_row := current_row st + k;
         consecutive_empty_count := consecutive_empty_count st + k;
         updates := updates st |}.
Proof.
  revert st. induction k as [|k IH]; intros st Hcount Hrows.
  - rewrite !Nat.add_0_r. destruct st; reflexivity.
  - cbn [Nat.add while_true]. rewrite iterate_skipped
      by (rewrite <- (Nat.add_0_r (current_row st)); apply Hrows; lia).
    cbv zeta. destruct (Nat.leb_spec 10 (S (consecutive_empty_count st))); [lia|].
    rewrite IH; cbn [current_row consecutive_empty_count updates].
    + f_equal. f_equal; lia.
    + lia.
    + intros i Hi. replace (S (current_row st) + i)%nat with (current_row st + S i)%nat by lia.
      apply Hrows. lia.
Qed.

Lemma iterate_refused st :
  row_is_refused sheet (current_row st) = true ->
  iterate driver cfg sheet st = Break st \/ iterate driver cfg sheet st = Raise st.
Proof.
  unfold row_is_refused, iterate.
  destruct (row_values sheet (current_row st)); [discriminate | auto | auto].
Qed.

Lemma iterate_not_valid st :
  row_is_valid cfg sheet (current_row st) = false ->
  row_is_refused sheet (current_row st) = true
  \/ row_is_skipped cfg sheet (current_row st) = true.
Proof.
  unfold row_is_valid, row_is_refused, row_is_skipped.
  destruct (row_values sheet (current_row st)); [|auto..].
  intros ->. now right.
Qed.

(** From a row on which reading fails the loop does not go on. *)
Lemma ends_at_refused_row n :
  forall fuel st,
    row_is_refused sheet (current_row st + n) = true ->
    (n < fuel)%nat ->
    exists st', while_true fuel driver cfg sheet st = Some st'
                /\ (current_row st' <= current_row st + n)%nat.
Proof.
  induction n as [|n IH]; intros fuel st Href Hfuel;
    (destruct fuel as [|fuel]; [lia|]); cbn [while_true].
  - rewrite Nat.add_0_r in Href.
    destruct (iterate_refused st Href) as [-> | ->]; exists st; split; auto; lia.
  - pose proof (iterate_spec st) as Hstep. cbv zeta in Hstep.
    destruct (iterate driver cfg sheet st) as [st1|st1|st1];
      [|exists st1; split; [reflexivity | lia]..].
    destruct Hstep as (Hrow & _ & _).
    destruct (IH fuel st1) as (st' & Hrun & Hle); [|lia|].
    + rewrite Hrow. now replace (S (current_row st) + n)%nat with (current_row st + S n)%nat
        by lia.
    + exists st'. split; [exact Hrun | lia].
Qed.

(** Rows without valid URLs end the loop once the count reaches ten. *)
Lemma ends_within_invalid_rows m :
  forall fuel st,
    (consecutive_empty_count st < 10)%nat ->
    (10 <= consecutive_empty_count st + m)%nat ->
    (forall i, (i < m)%nat -> row_is_valid cfg sheet (current_row st + i) = false) ->
    (m <= fuel)%nat ->
    exists st', while_true fuel driver cfg sheet st = Some st'
                /\ (current_row st' < current_row st + m)%nat.
Proof.
  induction m as [|m IH]; intros fuel st Hcount Hten Hrows Hfuel; [lia|].
  destruct fuel as [|fuel]; [lia|]. cbn [while_true].
  assert (Hrow : row_is_valid cfg sheet (current_row st) = false).
  { rewrite <- (Nat.add_0_r (current_row st)). apply Hrows. lia. }
  destruct (iterate_not_valid st Hrow) as [Href|Hskip].
  - destruct (iterate_refused st Href) as [-> | ->]; exists st; split; auto; lia.
  - rewrite (iterate_skipped st Hskip). cbv zeta.
    destruct (Nat.leb_spec 10 (S (consecutive_empty_count st))).
    + eexists. split; [reflexivity|]. cbn [current_row]. lia.
    + destruct (IH fuel {| current_row := S (current_row st);
                           consecutive_empty_count := S (consecutive_empty_count st);
                           updates := updates st |}) as (st' & Hrun & Hlt);
        cbn [current_row consecutive_empty_count]; try lia.
      * intros i Hi.
        replace (S (current_row st) + i)%nat with (current_row st + S i)%nat by lia.
        apply Hrows. lia.
      * exists st'. split; [exact Hrun|]. cbn [current_row] in Hlt. lia.
Qed.

Lemma ends_at_invalid_rows n :
  forall fuel st,
    (consecutive_empty_count st < 10)%nat ->
    (forall i, (i < 10)%nat ->
       row_is_valid cfg sheet (current_row st + n + i) = false) ->
    (n + 10 <= fuel)%nat ->
    exists st', while_true fuel driver cfg sheet st = Some st'
                /\ (current_row st' < current_row st + n + 10)%nat.
Proof.
  induction n as [|n IH]; intros fuel st Hcount Hrows Hfuel.
  - rewrite Nat.add_0_r in *. apply ends_within_invalid_rows; auto; lia.
  - destruct fuel as [|fuel]; [lia|]. cbn [while_true].
    pose proof (iterate_spec st) as Hstep. cbv zeta in Hstep.
    destruct (iterate driver cfg sheet st) as [st1|st1|st1];
      [|exists st1; split; [reflexivity | lia]..].
    destruct Hstep as (Hrow & _ & Hcount1).
    destruct (IH fuel st1 Hcount1) as (st' & Hrun & Hlt); [|lia|].
    + intros i Hi. rewrite Hrow.
      replace (S (current_row st) + n + i)%nat with (current_row st + S n + i)%nat by lia.
      now apply Hrows.
    + exists st'. split; [exact Hrun | lia].
Qed.

End Loop.

(** X18.  When the loop ends, the sheet has received, for each row with
    two valid URLs from the start row up to the row at which the loop
    ended, in ascending order, one update that clears its output range
    followed by one that writes its values; rows without valid URLs
    receive nothing; the only other update is the clearing of the last row
    when the write that follows it fails. *)
Theorem sheet_updates_follow_the_rows fuel driver cfg sheet sheet_updates :
  run_in_thread fuel true (Some driver) cfg sheet = Some sheet_updates ->
  exists stop,
    (start_row cfg <= stop)%nat
    /\ sheet_updates
       = List.flat_map (row_updates driver cfg sheet)
           (List.seq (start_row cfg) (stop - start_row cfg))
         ++ interrupted_updates cfg sheet stop
    /\ row_is_valid cfg sheet stop && row_is_written sheet stop = false.
Proof.
  unfold run_in_thread.
  destruct (while_true fuel driver cfg sheet (initial_state cfg)) as [st'|] eqn:Hrun;
    [|discriminate].
  intros [= <-]. destruct (while_true_trace _ _ _ _ _ _ Hrun) as (Hle & Hup & Hstop).
  exists (current_row st'). cbn [initial_state current_row updates app] in *. auto.
Qed.

(** X19.  Ten rows in a row without two valid URLs end the loop: from a
    count of [c] such rows, [10 - c] more of them stop it at the last of
    them, with no further update and no further row read. *)
Theorem ten_skipped_rows_end_the_loop fuel driver cfg sheet st :
  (consecutive_empty_count st < 10)%nat ->
  let k := (10 - consecutive_empty_count st)%nat in
  (forall i, (i < k)%nat -> row_is_skipped cfg sheet (current_row st + i) = true) ->
  (k <= fuel)%nat ->
  while_true fuel driver cfg sheet st
  = Some {| current_row := current_row st + (k - 1);
            consecutive_empty_count := 10;
            updates := updates st |}.
Proof.
  intros Hcount k Hrows Hfuel.
  replace fuel with ((k - 1) + S (fuel - k))%nat by lia.
  rewrite skip_rows by (try intros i Hi; try apply Hrows; lia).
  cbn [while_true]. rewrite iterate_skipped by (cbn [current_row]; apply Hrows; lia).
  cbn [current_row consecutive_empty_count updates].
  destruct (Nat.leb_spec 10 (S (consecutive_empty_count st + (k - 1)))); [|lia].
  do 2 f_equal. lia.
Qed.

(** X20.  A row with two valid URLs resets the count of skipped rows: up
    to nine skipped rows followed by a valid row whose updates go through
    leave the loop at the next row with the count at 0, the valid row
    cleared and written. *)
Theorem a_valid_row_resets_the_count k fuel driver cfg sheet st values main_page_url
    side_panel_url :
  (consecutive_empty_count st + k < 10)%nat ->
  (forall i, (i < k)%nat -> row_is_skipped cfg sheet (current_row st + i) = true) ->
  row_values sheet (current_row st + k) = RowValues values ->
  row_urls cfg values = Some (main_page_url, side_panel_url) ->
  row_is_written sheet (current_row st + k) = true ->
  while_true (k + S fuel) driver cfg sheet st
  = while_true fuel driver cfg sheet
      {| current_row := S (current_row st + k);
         consecutive_empty_count := 0;
         updates := updates st
                    ++ [Cleared (current_row st + k);
                        Wrote (current_row st + k)
                          (row_output driver cfg main_page_url side_panel_url)] |}.
Proof.
  intros Hcount Hrows Hvalues Hurls Hwritten.
  rewrite skip_rows by assumption. cbn [while_true]. unfold iterate.
  cbn [current_row consecutive_empty_count updates]. rewrite Hvalues, Hurls.
  unfold row_is_written in Hwritten. apply andb_prop in Hwritten as [Hc Hw].
  apply negb_true_iff in Hc, Hw. rewrite Hc, Hw. reflexivity.
Qed.

(** X21.  The loop ends: when reading some row from the start row on
    fails, it ends at that row or before; when ten rows in a row hold no
    two valid URLs, it ends at the last of them or before. *)
Theorem the_loop_ends fuel driver cfg sheet N :
  (start_row cfg <= N)%nat ->
  (N - start_row cfg + 10 <= fuel)%nat ->
  (row_is_refused sheet N = true ->
   exists st', while_true fuel driver cfg sheet (initial_state cfg) = Some st'
               /\ (current_row st' <= N)%nat)
  /\ ((forall i, (i < 10)%nat -> row_is_valid cfg sheet (N + i) = false) ->
      exists st', while_true fuel driver cfg sheet (initial_state cfg) = Some st'
                  /\ (current_row st' < N + 10)%nat).
Proof.
  intros Hstart Hfuel. split.
  - intros Href.
    destruct (ends_at_refused_row driver cfg sheet (N - start_row cfg) fuel (initial_state cfg))
      as (st' & Hrun & Hle); cbn [initial_state current_row] in *; try lia.
    + now replace (start_row cfg + (N - start_row cfg))%nat with N by lia.
    + exists st'. split; [exact Hrun | lia].
  - intros Hrows.
    destruct (ends_at_invalid_rows driver cfg sheet (N - start_row cfg) fuel (initial_state cfg))
      as (st' & Hrun & Hlt); cbn [initial_state current_row consecutive_empty_count] in *;
      try lia.
    + intros i Hi.
      replace (start_row cfg + (N - start_row cfg) + i)%nat with (N + i)%nat by lia.
      now apply Hrows.
    + exists st'. split; [exact Hrun | lia].
Qed.

End RunnerFacts.

(** * The further properties on sample pages *)

Module MoreChecks.

Import Samples MoreSamples PyFloat Runner.




Lemma offer_counts_add_up_witness :
  let r := get_product_data (Some driver) url url f0_85 f1_15 in
  status r = "success"%string
  /\ total_offers r = VInt 3 /\ fba_count r = VInt 2
  /\ fbm_count r = VInt 1 /\ inventory_score r = VInt 5.
Proof.
  assert (Hs : status (get_product_data (Some driver) url url f0_85 f1_15) = "success"%string)
    by (vm_compute; reflexivity).
  destruct (offer_counts_add_up (Some driver) url url f0_85 f1_15 Hs)
    as (total & fba & fbm & score & Ht & Hfba & Hfbm & Hscore & _).
  cbv zeta. split; [exact Hs|]. repeat split; vm_compute; reflexivity.
Defined.

Lemma effective_sellers_bounds_witness :
  let r := get_product_data (Some driver) url url f0_85 f1_15 in
  status r = "success"%string
  /\ exists eff total,
       effective_sellers_count r = VInt eff /\ total_offers r = VInt total
       /\ 0 <= eff <= total
       /\ eff - 1 <= Z.of_nat (length (offers r)) <= eff
       /\ (optimal_price r = VStr NA \/ exists p, optimal_price r = VInt p)
       /\ (optimal_price r = VStr NA -> eff < 3).
Proof.
  assert (Hs : status (get_product_data (Some driver) url url f0_85 f1_15) = "success"%string)
    by (vm_compute; reflexivity).
  cbv zeta. split; [exact Hs|].
  exact (effective_sellers_bounds (Some driver) url url f0_85 f1_15 Hs).
Defined.

Lemma displayed_offers_ordered_distinct_witness :
  let r := get_product_data (Some (static_driver page_no_buybox panel_ties))
             url url f0_85 f1_15 in
  status r = "success"%string
  /\ List.map total_price (offers r) = [100; 110; 110; 120]
  /\ StronglySorted le_total (offers r)
  /\ NoDup (List.map identifier (offers r)).
Proof.
  assert (Hs : status (get_product_data (Some (static_driver page_no_buybox panel_ties))
                         url url f0_85 f1_15) = "success"%string)
    by (vm_compute; reflexivity).
  destruct (displayed_offers_ordered_distinct
              (Some (static_driver page_no_buybox panel_ties)) url url f0_85 f1_15 Hs)
    as (Hsorted & Hnodup & _).
  cbv zeta. split; [exact Hs|]. split; [vm_compute; reflexivity|]. split; assumption.
Defined.

Lemma result_is_non_negative_witness :
  let r := get_product_data (Some driver) url url f0_85 f1_15 in
  status r = "success"%string
  /\ Forall (fun o => 0 <= price o /\ 0 <= shipping_fee o) (offers r)
  /\ optimal_price r = VInt 1000.
Proof.
  assert (Hs : status (get_product_data (Some driver) url url f0_85 f1_15) = "success"%string)
    by (vm_compute; reflexivity).
  destruct (result_is_non_negative (Some driver) url url f0_85 f1_15 Hs) as (Hoffers & _).
  cbv zeta. split; [exact Hs|]. split; [exact Hoffers | vm_compute; reflexivity].
Defined.

Lemma trusted_buybox_shows_all_others_witness :
  let r := get_product_data (Some driver) url url f0_85 f1_15 in
  (status r = "success"%string
   /\ real_stock r = VInt 5 /\ 2 < 5
   /\ bi_price (buybox_info r) = VInt 1000
   /\ Text.py_in FBA_MARK (bi_shipper (buybox_info r)) = true)
  /\ optimal_price r = VInt 1000
  /\ total_offers r = VInt 3
  /\ length (offers r) = 2%nat.
Proof.
  assert (Hs : status (get_product_data (Some driver) url url f0_85 f1_15) = "success"%string)
    by (vm_compute; reflexivity).
  assert (Hn : real_stock (get_product_data (Some driver) url url f0_85 f1_15) = VInt 5)
    by (vm_compute; reflexivity).
  assert (Hp : bi_price (buybox_info (get_product_data (Some driver) url url f0_85 f1_15))
               = VInt 1000) by (vm_compute; reflexivity).
  assert (Hfba : Text.py_in FBA_MARK
                   (bi_shipper (buybox_info (get_product_data (Some driver) url url
                                               f0_85 f1_15))) = true)
    by (vm_compute; reflexivity).
  destruct (trusted_buybox_shows_all_others (Some driver) url url f0_85 f1_15 5 1000
              Hs Hn ltac:(lia) Hp Hfba) as (Hopt & total & Htotal & _ & _ & Hlen).
  cbv zeta. split; [repeat split; try assumption; lia|].
  split; [exact Hopt|]. split; vm_compute; reflexivity.
Defined.

Lemma band_median_is_central_witness :
  let unique := unique_offers (_parse_main_page_buybox page_no_buybox)
                  (_parse_side_panel_offers panel_four) in
  exists sel,
    (band_rule unique f0_85 f1_15 = Some sel /\ sel_optimal_price sel = VInt 120)
    /\ (3 <= length (sel_price_group sel))%nat
    /\ (2 * count_cheaper 120 (sel_price_group sel) <= length (sel_price_group sel))%nat
    /\ (2 * count_dearer 120 (sel_price_group sel) <= length (sel_price_group sel))%nat.
Proof.
  cbv zeta.
  assert (H : exists sel,
             band_rule (unique_offers (_parse_main_page_buybox page_no_buybox)
                          (_parse_side_panel_offers panel_four)) f0_85 f1_15 = Some sel
             /\ sel_optimal_price sel = VInt 120)
    by (vm_compute; eexists; split; reflexivity).
  destruct H as (sel & Hband & Hopt). exists sel. split; [split; assumption|].
  destruct (band_median_is_central _ _ _ _ _ Hband Hopt) as (H3 & _ & Hc & Hd & _).
  repeat split; assumption.
Defined.

Lemma success_row_layout_witness :
  let data := get_product_data (Some driver) url url f0_85 f1_15 in
  status data = "success"%string
  /\ length (Gui.values_to_write data) = 25%nat
  /\ Gui.values_to_write data !! 15%nat = Some (VInt 1200)
  /\ Gui.values_to_write data !! 24%nat = Some (VStr "店B").
Proof.
  assert (Hs : status (get_product_data (Some driver) url url f0_85 f1_15) = "success"%string)
    by (vm_compute; reflexivity).
  destruct (success_row_layout _ Hs) as (Hlen & _ & Hcells). cbv zeta in Hlen, Hcells.
  cbv zeta. split; [exact Hs|]. split; [rewrite Hlen; vm_compute; reflexivity|].
  split; vm_compute; reflexivity.
Defined.

Lemma many_offers_mean_sufficient_stock_witness :
  let r := get_product_data (Some (static_driver page_no_buybox panel_four))
             url url f0_85 f1_15 in
  status r = "success"%string
  /\ total_offers r = VInt 4
  /\ Gui.stock_status r = Gui.SUFFICIENT.
Proof.
  assert (Hs : status (get_product_data (Some (static_driver page_no_buybox panel_four))
                         url url f0_85 f1_15) = "success"%string)
    by (vm_compute; reflexivity).
  destruct (many_offers_mean_sufficient_stock
              (Some (static_driver page_no_buybox panel_four)) url url f0_85 f1_15 Hs)
    as (total & fba & Ht & Hf & Hsuff & _).
  cbv zeta. split; [exact Hs|]. split; [vm_compute; reflexivity|].
  apply Hsuff. left. vm_compute in Ht. injection Ht as <-. lia.
Defined.


Lemma equal_totals_keep_first_seen_order_witness :
  let r := get_product_data (Some (static_driver page_no_buybox panel_ties))
             url url f0_85 f1_15 in
  List.map seller (with_total 110 (offers r)) = ["店B"; "店C"]%string
  /\ sublist (with_total 110 (offers r))
       (unique_offers (_parse_main_page_buybox page_no_buybox)
          (_parse_side_panel_offers panel_ties)).
Proof.
  cbv zeta. split; [vm_compute; reflexivity|].
  exact (equal_totals_keep_first_seen_order (static_driver page_no_buybox panel_ties)
           url url f0_85 f1_15 page_no_buybox panel_ties eq_refl eq_refl 110).
Defined.

Lemma sheet_updates_follow_the_rows_witness :
  exists values,
    run_in_thread 20 true (Some driver) sample_config (sheet_of sample_rows)
    = Some [Cleared 2; Wrote 2 values; Cleared 4; Wrote 4 values]
    /\ exists stop,
         (start_row sample_config <= stop)%nat
         /\ [Cleared 2; Wrote 2 values; Cleared 4; Wrote 4 values]
            = List.flat_map (row_updates driver sample_config (sheet_of sample_rows))
                (List.seq (start_row sample_config) (stop - start_row sample_config))
              ++ interrupted_updates sample_config (sheet_of sample_rows) stop
         /\ row_is_valid sample_config (sheet_of sample_rows) stop
            && row_is_written (sheet_of sample_rows) stop = false.
Proof.
  eexists. split; [vm_compute; reflexivity|].
  apply (RunnerFacts.sheet_updates_follow_the_rows 20 driver sample_config
           (sheet_of sample_rows)).
  vm_compute. reflexivity.
Defined.

Lemma ten_skipped_rows_end_the_loop_witness :
  ((consecutive_empty_count (at_row 5) < 10)%nat
   /\ (forall i, (i < 10)%nat ->
         row_is_skipped sample_config (sheet_of sample_rows) (5 + i) = true)
   /\ (10 <= 10)%nat)
  /\ while_true 10 driver sample_config (sheet_of sample_rows) (at_row 5)
     = Some {| current_row := 14; consecutive_empty_count := 10; updates := [] |}.
Proof.
  assert (Hcount : (consecutive_empty_count (at_row 5) < 10)%nat) by (simpl; lia).
  assert (Hrows : forall i, (i < 10)%nat ->
            row_is_skipped sample_config (sheet_of sample_rows) (5 + i) = true).
  { intros i Hi. do 10 (destruct i as [|i]; [reflexivity|]). lia. }
  split; [split; [exact Hcount | split; [exact Hrows | lia]]|].
  exact (RunnerFacts.ten_skipped_rows_end_the_loop 10 driver sample_config
           (sheet_of sample_rows) (at_row 5) Hcount Hrows (Nat.le_refl 10)).
Defined.

Lemma a_valid_row_resets_the_count_witness :
  let values := ["https://www.amazon.co.jp/dp/B000000001";
                 "https://www.amazon.co.jp/gp/aod/B000000001"]%string in
  ((consecutive_empty_count (at_row 3) + 1 < 10)%nat
   /\ (forall i, (i < 1)%nat ->
         row_is_skipped sample_config (sheet_of sample_rows) (3 + i) = true)
   /\ row_values (sheet_of sample_rows) 4 = RowValues values
   /\ row_urls sample_config values
      = Some ("https://www.amazon.co.jp/dp/B000000001",
              "https://www.amazon.co.jp/gp/aod/B000000001")%string
   /\ row_is_written (sheet_of sample_rows) 4 = true)
  /\ while_true 12 driver sample_config (sheet_of sample_rows) (at_row 3)
     = while_true 10 driver sample_config (sheet_of sample_rows)
         {| current_row := 5;
            consecutive_empty_count := 0;
            updates := [Cleared 4;
                        Wrote 4 (row_output driver sample_config
                                   "https://www.amazon.co.jp/dp/B000000001"
                                   "https://www.amazon.co.jp/gp/aod/B000000001")] |}.
Proof.
  cbv zeta.
  assert (Hcount : (consecutive_empty_count (at_row 3) + 1 < 10)%nat) by (simpl; lia).
  assert (Hrows : forall i, (i < 1)%nat ->
            row_is_skipped sample_config (sheet_of sample_rows) (3 + i) = true).
  { intros i Hi. destruct i as [|i]; [reflexivity | lia]. }
  split; [split; [exact Hcount | split; [exact Hrows | repeat split]]|].
  exact (RunnerFacts.a_valid_row_resets_the_count 1 10 driver sample_config
           (sheet_of sample_rows) (at_row 3) _ _ _ Hcount Hrows eq_refl eq_refl eq_refl).
Defined.

Lemma the_loop_ends_witness :
  ((start_row sample_config <= 5)%nat /\ (5 - start_row sample_config + 10 <= 13)%nat)
  /\ exists st',
       while_true 13 driver sample_config (sheet_of sample_rows)
         (initial_state sample_config) = Some st'
       /\ (current_row st' < 5 + 10)%nat.
Proof.
  assert (Hstart : (start_row sample_config <= 5)%nat) by (simpl; lia).
  assert (Hfuel : (5 - start_row sample_config + 10 <= 13)%nat) by (simpl; lia).
  split; [split; assumption|].
  apply (proj2 (RunnerFacts.the_loop_ends 13 driver sample_config (sheet_of sample_rows) 5
                  Hstart Hfuel)).
  intros i Hi. do 10 (destruct i as [|i]; [reflexivity|]). lia.
Defined.

Lemma url_ok_rule_witness :
  Forall (fun w => In w Text.whitespace) [" "; "　"]%string
  /\ url_ok " 　" = false
  /\ url_ok " 　https://www.amazon.co.jp/dp/B000000000 " = true
  /\ url_ok " 　www.amazon.co.jp" = false.
Proof.
  assert (Hseps : Forall (fun w => In w Text.whitespace) [" "; "　"]%string).
  { repeat (apply List.Forall_cons;
            [vm_compute; repeat (first [left; reflexivity | right])|]).
    apply List.Forall_nil. }
  destruct (RunnerFacts.url_ok_rule _ Hseps) as (Hblank & Hhttp & Hother).
  split; [exact Hseps|]. split; [exact Hblank|]. split.
  - exact (Hhttp "s://www.amazon.co.jp/dp/B000000000 "%string).
  - exact (Hother "w"%char "ww.amazon.co.jp"%string eq_refl ltac:(discriminate)).
Defined.

End MoreChecks.
